(** * Dashboard widget renderer: responsive helpers and [WidgetRenderer]

    A shallow embedding of [src/utils/responsiveUtils.ts] and of the
    [WidgetRenderer] component, with the properties its specification
    states about them.

    ** Numbers

    A JavaScript [number] is embedded as an exact rational ([Q]): the
    decimal literals of the source ([0.6], [0.75], [1.2]) are the [Q]
    literals of the same spelling, comparisons are the comparisons of
    [Q], and products are exact.  [NaN] and the infinities are not values
    of the embedding (container widths come from [offsetWidth], metric
    samples from decoded JSON), and binary64 rounding of products is not
    represented. *)

From Stdlib Require Import QArith Qround Lqa Ascii String DecimalString.
From stdpp Require Import gmap strings list.

Set Warnings "-register-all".
Open Scope Q_scope.

(** ** The [Math] built-ins the source calls *)

Module Math.

Definition max (a b : Q) : Q := if Qlt_le_dec a b then b else a.

Definition min (a b : Q) : Q := if Qlt_le_dec b a then b else a.

End Math.

(** ** [src/utils/responsiveUtils.ts] *)

(** The template literal [`${x}px`]: a CSS length in pixels, kept as the
    number it is printed from. *)
Inductive css_length : Type :=
| Px (x : Q).

Definition px_value (l : css_length) : Q :=
  match l with Px x => x end.

(** [baseSize] is the optional second argument ([None] when the caller
    leaves it out); its default is [16]. *)
Definition getResponsiveFontSize (width : Q) (baseSize : option Q) : css_length :=
  let baseSize := default 16 baseSize in
  if Qlt_le_dec width 150 then Px (Math.max 12 (baseSize * 0.6))
  else if Qlt_le_dec width 200 then Px (Math.max 14 (baseSize * 0.75))
  else if Qlt_le_dec width 300 then Px (Math.max 16 (baseSize * 0.9))
  else if Qlt_le_dec width 400 then Px baseSize
  else Px (Math.min (baseSize * 1.2) 48).

Definition getResponsivePadding (width : Q) : Q :=
  if Qlt_le_dec width 150 then 8
  else if Qlt_le_dec width 250 then 12
  else 16.

Definition getResponsiveGap (width : Q) : Q :=
  if Qlt_le_dec width 150 then 8
  else if Qlt_le_dec width 250 then 12
  else 16.

(** ** [WidgetRenderer]: the scale tier *)

(** The state [containerWidth] starts at [0]; on mount and on every
    resize it becomes the [offsetWidth] of the observed element, when
    [containerRef.current] is set. *)
Definition initialContainerWidth : Q := 0.

Definition observeWidth (current : option Z) (containerWidth : Q) : Q :=
  match current with
  | Some offsetWidth => inject_Z offsetWidth
  | None => containerWidth
  end.

(** [getScaleFactor] closes over the component state [containerWidth];
    here the state is its argument. *)
Definition getScaleFactor (containerWidth : Q) : Q :=
  if Qlt_le_dec containerWidth 150 then 0.6
  else if Qlt_le_dec containerWidth 200 then 0.75
  else if Qlt_le_dec containerWidth 300 then 0.9
  else if Qlt_le_dec containerWidth 400 then 1
  else 1.2.


(** ** JavaScript values of type [any]

    The configuration blobs of a widget are untyped JSON objects. *)

Inductive jsval : Type :=
| VUndef
| VNull
| VBool (b : bool)
| VNum (x : Q)
| VStr (s : string)
| VArr (items : list jsval)
| VObj (fields : gmap string jsval).

(** Property access [v.k]: [undefined] for a key the object lacks.  The
    keys the component reads are no properties of a primitive or of an
    array. *)
Definition prop (v : jsval) (k : string) : jsval :=
  match v with
  | VObj fields => default VUndef (fields !! k)
  | _ => VUndef
  end.

Definition truthy (v : jsval) : bool :=
  match v with
  | VUndef | VNull => false
  | VBool b => b
  | VNum x => negb (Qeq_bool x 0)
  | VStr s => negb (String.eqb s "")
  | VArr _ | VObj _ => true
  end.

(** [v || d] *)
Definition js_or (v d : jsval) : jsval :=
  if truthy v then v else d.

(** [v === 'lit'] for a string literal. *)
Definition strict_eq_str (v : jsval) (lit : string) : bool :=
  match v with
  | VStr s => String.eqb s lit
  | _ => false
  end.

(** [x || d] for a numeric field that may be absent. *)
Definition num_or (x : option Q) (d : Q) : Q :=
  match x with
  | Some v => if Qeq_bool v 0 then d else v
  | None => d
  end.

(** ** Data model *)

Record WidgetConfig : Type := {
  layoutId : string;
  widgetId : string;
  name : string;
  description : string;
  type : string;
  component : string;
  layoutConfig : jsval;
  dataSourceConfig : jsval;
  instanceConfig : jsval;
  defaultConfig : jsval;
  displayOrder : Q
}.

(** Modelled from the spec: [DeviceChartData] is declared in
    [services/api], which is not among the sources.  A chart-data record
    holds a time-ordered sequence of samples of the oil, water and gas
    flow rates; the fields are the ones [getMetricValue] reads, each of
    them possibly absent. *)
Module Device.

Record Sample : Type := {
  ofr : option Q;
  wfr : option Q;
  gfr : option Q
}.

Record ChartData : Type := {
  chartData : option (list Sample)
}.

End Device.

(** Modelled from the spec: [HierarchyChartData] is declared in
    [services/api], which is not among the sources.  Its samples carry
    the totals over a hierarchy. *)
Module Hierarchy.

Record Sample : Type := {
  totalOfr : option Q;
  totalWfr : option Q;
  totalGfr : option Q
}.

Record ChartData : Type := {
  chartData : option (list Sample)
}.

End Hierarchy.

Inductive TimeRange : Type :=
| range_1day
| range_7days
| range_1month.

(** ** [handleDelete] *)

(** The calls [handleDelete] makes to its environment, in order. *)
Inductive call : Type :=
| Confirm (message : string)
| OnDelete (layoutId : string).

Definition dquote : string := String "034"%char EmptyString.

Definition token_truthy (token : option string) : bool :=
  match token with
  | Some s => negb (String.eqb s "")
  | None => false
  end.

Definition deleteMessage (widget : WidgetConfig) : string :=
  "Are you sure you want to delete " +:+ dquote +:+ name widget
    +:+ dquote +:+ "?".

(** [onDelete] is the optional callback prop, [token] the value of
    [useAuth()], [confirm] the answer [window.confirm] gives to a
    message. *)
Definition handleDelete (widget : WidgetConfig)
    (onDelete : option (string -> unit)) (token : option string)
    (confirm : string -> bool) : list call :=
  if negb (bool_decide (is_Some onDelete)) || negb (token_truthy token) then []
  else
    let message := deleteMessage widget in
    if negb (confirm message) then [Confirm message]
    else [Confirm message; OnDelete (layoutId widget)].

(** ** [getMetricValue] *)

(** [data && data.length > 0] *)
Definition nonempty {A : Type} (data : option (list A)) : option (list A) :=
  match data with
  | Some l => if (0 <? length l)%nat then Some l else None
  | None => None
  end.

(** [getMetricValue] closes over the props [hierarchyChartData] and
    [chartData].  Reading past the end of an array gives [undefined],
    whose field access throws; the index [length - 1] is guarded by
    [length > 0], so that case leaves [value] as it is
    (see [getMetricValue_index_in_range]). *)
Definition getMetricValue
    (hierarchyChartData : option Hierarchy.ChartData)
    (chartData : option Device.ChartData) (metric : jsval) : Q :=
  let value := 0 in
  match nonempty (hierarchyChartData ≫= Hierarchy.chartData) with
  | Some hs =>
      match hs !! (length hs - 1)%nat with
      | Some latest =>
          if strict_eq_str metric "ofr" then num_or (Hierarchy.totalOfr latest) 0
          else if strict_eq_str metric "wfr" then num_or (Hierarchy.totalWfr latest) 0
          else if strict_eq_str metric "gfr" then num_or (Hierarchy.totalGfr latest) 0
          else value
      | None => value
      end
  | None =>
      match nonempty (chartData ≫= Device.chartData) with
      | Some ds =>
          match ds !! (length ds - 1)%nat with
          | Some latest =>
              if strict_eq_str metric "ofr" then num_or (Device.ofr latest) 0
              else if strict_eq_str metric "wfr" then num_or (Device.wfr latest) 0
              else if strict_eq_str metric "gfr" then num_or (Device.gfr latest) 0
              else value
          | None => value
          end
      | None => value
      end
  end.

(** ** [Number.prototype.toFixed] *)

Definition digits (n : Z) : string :=
  NilZero.string_of_uint (N.to_uint (Z.to_N n)).

Fixpoint zeros (n : nat) : string :=
  match n with
  | O => ""
  | S n => "0" +:+ zeros n
  end.

(** [x.toFixed(f)] on the exact value of [x]: the nearest multiple of
    [10^-f], the larger one on a tie, printed with [f] decimals.  From
    [10^21] on the built-in prints in exponent notation, which is not
    represented ([None]). *)
Definition toFixed (x : Q) (f : nat) : option string :=
  let s := if Qlt_le_dec x 0 then "-" else "" in
  let x := if Qlt_le_dec x 0 then - x else x in
  if Qlt_le_dec x (inject_Z (10 ^ 21)) then
    let n := Qfloor (x * inject_Z (10 ^ Z.of_nat f) + (1 # 2)) in
    let m := digits n in
    let m :=
      if (f =? 0)%nat then m
      else
        let m := if (String.length m <=? f)%nat
                 then zeros (f + 1 - String.length m) +:+ m else m in
        let k := String.length m in
        substring 0 (k - f) m +:+ "." +:+ substring (k - f) f m in
    Some (s +:+ m)
  else None.

(** ** The rendered element

    What [WidgetRenderer] returns, branch by branch, with the parts of
    the element that depend on the props, the theme or the width. *)

Record DeleteButton : Type := {
  buttonClass : string;
  buttonTitle : string
}.

Inductive Icon : Type :=
| AlarmClock (size : Q)
| Img (src alt : jsval) (size : Q).

Record UnitSpan : Type := {
  unitSize : Q;
  unitColor : string;
  unitText : jsval
}.

Record Card : Type := {
  cardClass : string;
  padding : Q;
  gap : Q;
  iconSize : Q;
  iconBackground : jsval;
  icon : Icon;
  titleSize : Q;
  titleColor : string;
  title : jsval;
  valueSize : Q;
  valueColor : string;
  valueText : option string;
  unitSpan : option UnitSpan
}.

Inductive view : Type :=
| CustomLineChartView (deleteButton : option DeleteButton)
    (widgetConfig : WidgetConfig) (range : TimeRange)
    (hierarchy device : jsval)
| MetricsCardView (card : Card)
| GVFWLRChartView (className : string)
    (data : option Device.ChartData)
    (hierarchyData : option Hierarchy.ChartData)
    (offline : bool) (widgetConfig : WidgetConfig)
| ProductionMapView (hierarchy device : jsval) (widgetConfig : WidgetConfig)
| UnknownWidgetView (className : string) (label : string) (shown : string).

(** The card of a metrics-card element, if the element is one. *)
Definition card_of (v : view) : option Card :=
  match v with
  | MetricsCardView card => Some card
  | _ => None
  end.

(** [widget.dataSourceConfig || {}] *)
Definition dsConfig (widget : WidgetConfig) : jsval :=
  js_or (dataSourceConfig widget) (VObj ∅).

(** [seriesConfig && Array.isArray(seriesConfig) && seriesConfig.length > 0],
    as the condition it is; the source computes it and no branch of the
    component reads it. *)
Definition isLineChartWidget (dsConfig : jsval) : bool :=
  truthy (prop dsConfig "seriesConfig")
  && match prop dsConfig "seriesConfig" with
     | VArr items => (0 <? length items)%nat
     | _ => false
     end.

Section Renderer.

(** [Date] objects and the clock format
    [toLocaleTimeString('en-GB', ...)] belong to the host. *)
Context {Date : Type} (toLocaleTimeString : Date -> string).

Record WidgetRendererProps : Type := {
  widget : WidgetConfig;
  chartData : option Device.ChartData;
  hierarchyChartData : option Hierarchy.ChartData;
  timeRange : option TimeRange;
  lastRefresh : option Date;
  isDeviceOffline : option bool;
  selectedDevice : jsval;
  selectedHierarchy : jsval;
  onDelete : option (string -> unit);
  isAdmin : option bool
}.

(** The component as a function of its props, of the theme given by
    [useTheme()] and of the state [containerWidth]. *)
Definition WidgetRenderer (props : WidgetRendererProps) (theme : string)
    (containerWidth : Q) : view :=
  let timeRange := default range_1day (timeRange props) in
  let isDeviceOffline := default false (isDeviceOffline props) in
  let isAdmin := default false (isAdmin props) in
  let dark := String.eqb theme "dark" in
  let dsConfig := dsConfig (widget props) in
  let cardBox :=
    if dark then "bg-[#162345]" else "bg-white border border-gray-200" in
  if String.eqb (component (widget props)) "CustomLineChart" then
    CustomLineChartView
      (if isAdmin && bool_decide (is_Some (onDelete props)) then
         Some {| buttonClass :=
                   "absolute top-2 right-2 z-20 p-2 rounded-lg transition-all "
                   +:+ (if dark then "bg-red-600 hover:bg-red-700 text-white"
                        else "bg-red-500 hover:bg-red-600 text-white");
                 buttonTitle := "Delete widget" |}
       else None)
      (widget props) timeRange (selectedHierarchy props) (selectedDevice props)
  else if String.eqb (component (widget props)) "MetricsCard" then
    if strict_eq_str (prop dsConfig "metric") "last_refresh" then
      let formattedTime :=
        match lastRefresh props with
        | Some d => toLocaleTimeString d
        | None => "--:--:--"
        end in
      let padding :=
        if Qlt_le_dec containerWidth 150 then 8
        else if Qlt_le_dec containerWidth 250 then 12 else 16 in
      let gap :=
        if Qlt_le_dec containerWidth 150 then 8
        else if Qlt_le_dec containerWidth 250 then 10 else 12 in
      let iconSize := Math.max 32 (Math.min 40 (containerWidth * 0.25)) in
      let titleSize := Math.max 10 (Math.min 14 (containerWidth * 0.08)) in
      let valueSize := Math.max 18 (Math.min 36 (containerWidth * 0.3)) in
      MetricsCardView
        {| cardClass :=
             "h-full rounded-lg transition-all duration-300 overflow-hidden "
             +:+ cardBox;
           padding := padding;
           gap := gap;
           iconSize := iconSize;
           iconBackground := js_or (prop dsConfig "color") (VStr "#d82e75");
           icon := AlarmClock (iconSize * 0.5);
           titleSize := titleSize;
           titleColor := if dark then "#D0CCD8" else "#555758";
           title := VStr "Last Refresh";
           valueSize := valueSize;
           valueColor := if dark then "white" else "#1f2937";
           valueText := Some formattedTime;
           unitSpan := None |}
    else
      let value :=
        getMetricValue (hierarchyChartData props) (chartData props)
          (prop dsConfig "metric") in
      let padding :=
        if Qlt_le_dec containerWidth 150 then 8
        else if Qlt_le_dec containerWidth 250 then 12 else 16 in
      let gap :=
        if Qlt_le_dec containerWidth 150 then 8
        else if Qlt_le_dec containerWidth 250 then 10 else 12 in
      let iconSize := Math.max 32 (Math.min 40 (containerWidth * 0.25)) in
      let titleSize := Math.max 10 (Math.min 14 (containerWidth * 0.08)) in
      let valueSize := Math.max 18 (Math.min 36 (containerWidth * 0.3)) in
      let unitSize := Math.max 10 (Math.min 16 (containerWidth * 0.08)) in
      MetricsCardView
        {| cardClass :=
             "h-full rounded-lg transition-all duration-300 overflow-hidden "
             +:+ cardBox;
           padding := padding;
           gap := gap;
           iconSize := iconSize;
           iconBackground :=
             if dark then js_or (prop dsConfig "colorDark") (VStr "#4D3DF7")
             else js_or (prop dsConfig "colorLight") (VStr "#F56C44");
           icon :=
             Img (js_or (prop dsConfig "icon") (VStr "/oildark.png"))
               (prop dsConfig "title") (iconSize * 0.6);
           titleSize := titleSize;
           titleColor := if dark then "#D0CCD8" else "#555758";
           title := js_or (prop dsConfig "title") (VStr "Metric");
           valueSize := valueSize;
           valueColor :=
             if isDeviceOffline then (if dark then "#6b7280" else "#9ca3af")
             else (if dark then "white" else "#1f2937");
           valueText := toFixed value 2;
           unitSpan :=
             Some {| unitSize := unitSize;
                     unitColor := if dark then "#D0CCD8" else "#555758";
                     unitText := js_or (prop dsConfig "unit") (VStr "l/min") |}
        |}
  else if String.eqb (component (widget props)) "GVFWLRChart" then
    GVFWLRChartView ("h-full rounded-lg " +:+ cardBox)
      (chartData props) (hierarchyChartData props) isDeviceOffline
      (widget props)
  else if String.eqb (component (widget props)) "ProductionMap" then
    ProductionMapView (selectedHierarchy props) (selectedDevice props)
      (widget props)
  else
    UnknownWidgetView
      ("h-full rounded-lg p-4 flex items-center justify-center "
       +:+ (if dark then "bg-[#162345] text-white"
            else "bg-white border border-gray-200 text-gray-900"))
      "Unknown widget type:" (component (widget props)).

End Renderer.

Arguments WidgetRendererProps : clear implicits.

(** ** Readings of the specification *)

(** The three metrics as read from the latest sample of either source:
    the readings the specification speaks of, to compare
    [getMetricValue] with. *)
Definition hierarchy_reading (latest : Hierarchy.Sample) (metric : jsval) : Q :=
  match metric with
  | VStr "ofr" => num_or (Hierarchy.totalOfr latest) 0
  | VStr "wfr" => num_or (Hierarchy.totalWfr latest) 0
  | VStr "gfr" => num_or (Hierarchy.totalGfr latest) 0
  | _ => 0
  end.

Definition device_reading (latest : Device.Sample) (metric : jsval) : Q :=
  match metric with
  | VStr "ofr" => num_or (Device.ofr latest) 0
  | VStr "wfr" => num_or (Device.wfr latest) 0
  | VStr "gfr" => num_or (Device.gfr latest) 0
  | _ => 0
  end.

(** A sequence that is missing or has no sample. *)
Definition absent_or_empty {A : Type} (data : option (list A)) : Prop :=
  data = None \/ data = Some [].

(** The user confirms the dialog in a run of [handleDelete]: the dialog
    was shown, with some message, and the answer to it was yes.  The
    user declines it: it was shown and the answer was no. *)
Definition user_confirms (confirm : string -> bool) (calls : list call)
    : Prop :=
  exists message, In (Confirm message) calls /\ confirm message = true.

Definition user_declines (confirm : string -> bool) (calls : list call)
    : Prop :=
  exists message, In (Confirm message) calls /\ confirm message = false.

(** ** Sample inputs *)

Definition sample_widget (component : string) (dataSourceConfig : jsval)
    : WidgetConfig :=
  {| layoutId := "layout-7"; widgetId := "widget-3"; name := "Oil rate";
     description := ""; type := "metric"; component := component;
     layoutConfig := VObj ∅; dataSourceConfig := dataSourceConfig;
     instanceConfig := VObj ∅; defaultConfig := VObj ∅; displayOrder := 1 |}.

Definition sample_hierarchy : Hierarchy.ChartData :=
  {| Hierarchy.chartData :=
       Some [ {| Hierarchy.totalOfr := Some 1; Hierarchy.totalWfr := Some 2;
                 Hierarchy.totalGfr := Some 3 |};
              {| Hierarchy.totalOfr := Some 40; Hierarchy.totalWfr := None;
                 Hierarchy.totalGfr := Some 60 |} ] |}.

Definition sample_device : Device.ChartData :=
  {| Device.chartData :=
       Some [ {| Device.ofr := Some 7; Device.wfr := Some 8;
                 Device.gfr := Some 9 |} ] |}.

(** A clock that shows the seconds since midnight it is given. *)
Definition sample_clock (t : Z) : string :=
  digits (t / 3600) +:+ ":" +:+ digits (t / 60 mod 60) +:+ ":"
    +:+ digits (t mod 60).

Definition sample_props (component : string) (dataSourceConfig : jsval)
    : WidgetRendererProps Z :=
  {| widget := sample_widget component dataSourceConfig;
     chartData := Some sample_device;
     hierarchyChartData := Some sample_hierarchy;
     timeRange := None; lastRefresh := None; isDeviceOffline := None;
     selectedDevice := VUndef; selectedHierarchy := VUndef;
     onDelete := Some (fun _ => tt); isAdmin := Some true |}.


(** ** Observations on the rendered element *)

(** The delete button of an element, if it carries one: only the
    line-chart branch renders a button. *)
Definition deleteButton_of (v : view) : option DeleteButton :=
  match v with
  | CustomLineChartView deleteButton _ _ _ _ => deleteButton
  | _ => None
  end.

(** The branch of the [switch] an element comes from. *)
Inductive branch : Type :=
| CustomLineChartBranch
| MetricsCardBranch
| GVFWLRChartBranch
| ProductionMapBranch
| DefaultBranch.

Definition branch_of (v : view) : branch :=
  match v with
  | CustomLineChartView _ _ _ _ _ => CustomLineChartBranch
  | MetricsCardView _ => MetricsCardBranch
  | GVFWLRChartView _ _ _ _ _ => GVFWLRChartBranch
  | ProductionMapView _ _ _ => ProductionMapBranch
  | UnknownWidgetView _ _ _ => DefaultBranch
  end.

(** The keys of [dsConfig] that the metrics card reads. *)
Definition card_keys : list string :=
  ["metric"; "color"; "colorDark"; "colorLight"; "icon"; "title"; "unit"].

(** A card with another value colour. *)
Definition with_valueColor (card : Card) (color : string) : Card :=
  {| cardClass := cardClass card; padding := padding card; gap := gap card;
     iconSize := iconSize card; iconBackground := iconBackground card;
     icon := icon card; titleSize := titleSize card;
     titleColor := titleColor card; title := title card;
     valueSize := valueSize card; valueColor := color;
     valueText := valueText card; unitSpan := unitSpan card |}.

(** Props with another widget configuration, for the sample inputs. *)
Definition sample_props_named (widgetName : string) (admin : option bool)
    (offline : option bool) (dataSourceConfig : jsval)
    : WidgetRendererProps Z :=
  {| widget :=
       {| layoutId := "layout-9"; widgetId := "widget-4"; name := widgetName;
          description := "daily"; type := "metric"; component := "MetricsCard";
          layoutConfig := VNull; dataSourceConfig := dataSourceConfig;
          instanceConfig := VObj ∅; defaultConfig := VObj ∅;
          displayOrder := 2 |};
     chartData := Some sample_device;
     hierarchyChartData := Some sample_hierarchy;
     timeRange := Some range_7days; lastRefresh := None;
     isDeviceOffline := offline;
     selectedDevice := VStr "dev-1"; selectedHierarchy := VUndef;
     onDelete := None; isAdmin := admin |}.

(** * Properties *)

(** Splits every breakpoint test of the goal, leaving the arithmetic of
    each branch to [lra]. *)
Ltac breakpoints :=
  repeat match goal with
         | |- context [Qlt_le_dec ?a ?b] => destruct (Qlt_le_dec a b)
         end.

Example getScaleFactor_149 : getScaleFactor 149 = 0.6.
Proof. reflexivity. Qed.

Example getScaleFactor_150 : getScaleFactor 150 = 0.75.
Proof. reflexivity. Qed.

Example getScaleFactor_400 : getScaleFactor 400 = 1.2.
Proof. reflexivity. Qed.

(** C1: for every container width [w], [getScaleFactor w] is [0.6] when
    [w < 150], [0.75] when [150 <= w < 200], [0.9] when [200 <= w < 300],
    [1] when [300 <= w < 400] and [1.2] when [400 <= w]; so it is always
    one of these five values. *)
Theorem getScaleFactor_table (w : Q) :
  (w < 150 -> getScaleFactor w = 0.6) /\
  (150 <= w -> w < 200 -> getScaleFactor w = 0.75) /\
  (200 <= w -> w < 300 -> getScaleFactor w = 0.9) /\
  (300 <= w -> w < 400 -> getScaleFactor w = 1) /\
  (400 <= w -> getScaleFactor w = 1.2) /\
  In (getScaleFactor w) [0.6; 0.75; 0.9; 1; 1.2].
Proof.
  unfold getScaleFactor.
  repeat split; intros; breakpoints;
    solve [ reflexivity | lra | simpl; tauto ].
Qed.

Lemma getScaleFactor_table_witness :
  getScaleFactor 100 = 0.6 /\ getScaleFactor 150 = 0.75 /\
  getScaleFactor 250 = 0.9 /\ getScaleFactor 399 = 1 /\
  getScaleFactor 400 = 1.2.
Proof.
  split; [ apply (getScaleFactor_table 100); lra | ].
  split; [ apply (getScaleFactor_table 150); lra | ].
  split; [ apply (getScaleFactor_table 250); lra | ].
  split; [ apply (getScaleFactor_table 399); lra | ].
  apply (getScaleFactor_table 400); lra.
Defined.

(** C3: the scale tier is monotonic in the container width. *)
Theorem getScaleFactor_monotone (w1 w2 : Q) :
  w1 <= w2 -> getScaleFactor w1 <= getScaleFactor w2.
Proof.
  intros Hle. unfold getScaleFactor. breakpoints; lra.
Qed.

Lemma getScaleFactor_monotone_witness :
  getScaleFactor 120 <= getScaleFactor 350.
Proof. apply (getScaleFactor_monotone 120 350). lra. Defined.

Example toFixed_samples :
  toFixed 0 2 = Some "0.00" /\ toFixed 12.345 2 = Some "12.35" /\
  toFixed (-0.001) 2 = Some "-0.00" /\ toFixed 1234.5 0 = Some "1235" /\
  toFixed 0.07 2 = Some "0.07" /\ toFixed 99.999 2 = Some "100.00".
Proof. repeat split; vm_compute; reflexivity. Qed.

(** ** Responsive typography *)

Example getResponsiveFontSize_default_tiers :
  getResponsiveFontSize 100 None = Px (Math.max 12 (16 * 0.6)) /\
  px_value (getResponsiveFontSize 100 None) == 12 /\
  px_value (getResponsiveFontSize 180 None) == 14 /\
  px_value (getResponsiveFontSize 250 None) == 16 /\
  px_value (getResponsiveFontSize 350 None) == 16 /\
  px_value (getResponsiveFontSize 500 None) == 19.2.
Proof. repeat split; vm_compute; reflexivity. Qed.

(** C4 as stated fails: with base size [10] the font shrinks from [16px]
    to [10px] when the width grows from [299] to [300]. *)
Lemma getResponsiveFontSize_not_monotone :
  299 <= 300 /\
  px_value (getResponsiveFontSize 299 (Some 10)) == 16 /\
  px_value (getResponsiveFontSize 300 (Some 10)) == 10 /\
  ~ px_value (getResponsiveFontSize 299 (Some 10))
    <= px_value (getResponsiveFontSize 300 (Some 10)).
Proof.
  split; [ lra | ].
  split; [ vm_compute; reflexivity | ].
  split; [ vm_compute; reflexivity | ].
  vm_compute. intros H. apply H. reflexivity.
Qed.

(** C4 (amended): for a base size between [16] and [48], the pixel
    value of [getResponsiveFontSize] is monotonic in the width. *)
Theorem getResponsiveFontSize_monotone (b w1 w2 : Q) :
  16 <= b -> b <= 48 -> w1 <= w2 ->
  px_value (getResponsiveFontSize w1 (Some b))
  <= px_value (getResponsiveFontSize w2 (Some b)).
Proof.
  intros Hlo Hhi Hle.
  unfold getResponsiveFontSize, Math.max, Math.min. simpl default.
  breakpoints; simpl px_value; lra.
Qed.

Lemma getResponsiveFontSize_monotone_witness :
  px_value (getResponsiveFontSize 120 (Some 20))
  <= px_value (getResponsiveFontSize 420 (Some 20)).
Proof. apply (getResponsiveFontSize_monotone 20 120 420); lra. Defined.

(** The bounds of the amended C4 are the only base sizes with a
    monotonic mapping: below [16] the step at width [300] goes down, above
    [48] the step at width [400] does. *)
Lemma getResponsiveFontSize_step_down (b : Q) :
  b < 16 \/ 48 < b ->
  exists w1 w2 : Q,
    w1 <= w2 /\
    ~ px_value (getResponsiveFontSize w1 (Some b))
      <= px_value (getResponsiveFontSize w2 (Some b)).
Proof.
  intros [Hlo | Hhi].
  - exists 299, 300. split; [ lra | ].
    unfold getResponsiveFontSize, Math.max, Math.min. simpl default.
    breakpoints; simpl px_value; lra.
  - exists 399, 400. split; [ lra | ].
    unfold getResponsiveFontSize, Math.max, Math.min. simpl default.
    breakpoints; simpl px_value; lra.
Qed.

Lemma getResponsiveFontSize_default_monotone (w1 w2 : Q) :
  w1 <= w2 ->
  px_value (getResponsiveFontSize w1 None)
  <= px_value (getResponsiveFontSize w2 None).
Proof.
  intros Hle.
  unfold getResponsiveFontSize, Math.max, Math.min. simpl default.
  breakpoints; simpl px_value; lra.
Qed.

(** ** Responsive spacing *)

(** C8: [getResponsivePadding] and [getResponsiveGap] agree at every
    width; both give [8] below [150], [12] from [150] up to [250], and
    [16] from [250] on. *)
Theorem getResponsivePadding_eq_getResponsiveGap (w : Q) :
  getResponsivePadding w = getResponsiveGap w /\
  getResponsivePadding w =
    (if Qlt_le_dec w 150 then 8 else if Qlt_le_dec w 250 then 12 else 16) /\
  (w < 150 -> getResponsivePadding w = 8 /\ getResponsiveGap w = 8) /\
  (150 <= w -> w < 250 ->
   getResponsivePadding w = 12 /\ getResponsiveGap w = 12) /\
  (~ w < 150 -> ~ (150 <= w /\ w < 250) ->
   getResponsivePadding w = 16 /\ getResponsiveGap w = 16).
Proof.
  unfold getResponsivePadding, getResponsiveGap.
  repeat split; intros; breakpoints;
    solve [ reflexivity | lra | exfalso; auto ].
Qed.

Lemma getResponsivePadding_eq_getResponsiveGap_witness :
  (getResponsivePadding 100 = 8 /\ getResponsiveGap 100 = 8) /\
  (getResponsivePadding 200 = 12 /\ getResponsiveGap 200 = 12) /\
  (getResponsivePadding 250 = 16 /\ getResponsiveGap 250 = 16).
Proof.
  split; [ apply (getResponsivePadding_eq_getResponsiveGap 100); lra | ].
  split; [ apply (getResponsivePadding_eq_getResponsiveGap 200); lra | ].
  apply (getResponsivePadding_eq_getResponsiveGap 250); lra.
Defined.

(** ** [getMetricValue] *)

Lemma nonempty_None {A : Type} (data : option (list A)) :
  nonempty data = None <-> absent_or_empty data.
Proof.
  unfold absent_or_empty. destruct data as [[| x l] |]; simpl; split;
    intros H; try tauto; try discriminate; destruct H; discriminate.
Qed.

Lemma nonempty_Some {A : Type} (data : option (list A)) (l : list A) :
  nonempty data = Some l <-> data = Some l /\ l <> [].
Proof.
  destruct data as [[| x l'] |]; simpl; split; intros H;
    try discriminate; try (destruct H; discriminate).
  - destruct H as [[= <-] H]. contradiction.
  - injection H as <-. split; [ reflexivity | discriminate ].
  - destruct H as [[= <-] _]. reflexivity.
Qed.

Lemma nonempty_snoc {A : Type} (pre : list A) (x : A) :
  nonempty (Some (pre ++ [x])) = Some (pre ++ [x]).
Proof. apply nonempty_Some. split; [ reflexivity | ]. destruct pre; discriminate. Qed.

Lemma lookup_latest_snoc {A : Type} (pre : list A) (x : A) :
  (pre ++ [x]) !! (length (pre ++ [x]) - 1)%nat = Some x.
Proof.
  rewrite length_app. simpl.
  replace (length pre + 1 - 1)%nat with (length pre + 0)%nat by lia.
  rewrite lookup_app_r by lia.
  replace (length pre + 0 - length pre)%nat with 0%nat by lia. reflexivity.
Qed.

Lemma lookup_latest_last {A : Type} (l : list A) :
  l !! (length l - 1)%nat = last l.
Proof.
  destruct l as [| y l] using rev_ind; [ reflexivity | ].
  rewrite lookup_latest_snoc, last_snoc. reflexivity.
Qed.

(** The index [length - 1] that [getMetricValue] reads is in range in
    both branches. *)
Lemma getMetricValue_index_in_range {A : Type} (data : option (list A))
    (l : list A) :
  nonempty data = Some l -> is_Some (l !! (length l - 1)%nat).
Proof.
  intros [_ Hne]%nonempty_Some. apply lookup_lt_is_Some.
  destruct l; [ contradiction | simpl; lia ].
Qed.

Lemma strict_eq_str_true (v : jsval) (lit : string) :
  strict_eq_str v lit = true <-> v = VStr lit.
Proof.
  destruct v; simpl; split; intros H; try discriminate.
  - apply String.eqb_eq in H. congruence.
  - injection H as ->. apply String.eqb_refl.
Qed.

Lemma hierarchy_switch (latest : Hierarchy.Sample) (metric : jsval) :
  (if strict_eq_str metric "ofr" then num_or (Hierarchy.totalOfr latest) 0
   else if strict_eq_str metric "wfr" then num_or (Hierarchy.totalWfr latest) 0
   else if strict_eq_str metric "gfr" then num_or (Hierarchy.totalGfr latest) 0
   else 0) = hierarchy_reading latest metric.
Proof.
  destruct (strict_eq_str metric "ofr") eqn:E1;
    [ apply strict_eq_str_true in E1; subst; reflexivity | ].
  destruct (strict_eq_str metric "wfr") eqn:E2;
    [ apply strict_eq_str_true in E2; subst; reflexivity | ].
  destruct (strict_eq_str metric "gfr") eqn:E3;
    [ apply strict_eq_str_true in E3; subst; reflexivity | ].
  unfold hierarchy_reading.
  repeat match goal with
         | |- context [match ?x with _ => _ end] =>
             destruct x; try reflexivity; try discriminate
         end.
Qed.

Lemma device_switch (latest : Device.Sample) (metric : jsval) :
  (if strict_eq_str metric "ofr" then num_or (Device.ofr latest) 0
   else if strict_eq_str metric "wfr" then num_or (Device.wfr latest) 0
   else if strict_eq_str metric "gfr" then num_or (Device.gfr latest) 0
   else 0) = device_reading latest metric.
Proof.
  destruct (strict_eq_str metric "ofr") eqn:E1;
    [ apply strict_eq_str_true in E1; subst; reflexivity | ].
  destruct (strict_eq_str metric "wfr") eqn:E2;
    [ apply strict_eq_str_true in E2; subst; reflexivity | ].
  destruct (strict_eq_str metric "gfr") eqn:E3;
    [ apply strict_eq_str_true in E3; subst; reflexivity | ].
  unfold device_reading.
  repeat match goal with
         | |- context [match ?x with _ => _ end] =>
             destruct x; try reflexivity; try discriminate
         end.
Qed.

Lemma getMetricValue_hierarchy (h : option Hierarchy.ChartData)
    (d : option Device.ChartData) (metric : jsval)
    (hs : list Hierarchy.Sample) :
  h ≫= Hierarchy.chartData = Some hs -> hs <> [] ->
  exists latest,
    last hs = Some latest /\
    getMetricValue h d metric = hierarchy_reading latest metric.
Proof.
  intros Hh Hne. unfold getMetricValue.
  assert (Hn : nonempty (h ≫= Hierarchy.chartData) = Some hs)
    by (apply nonempty_Some; auto).
  rewrite Hn.
  destruct (getMetricValue_index_in_range _ _ Hn) as [latest Hl].
  exists latest. rewrite Hl. split.
  - rewrite <- lookup_latest_last. exact Hl.
  - apply hierarchy_switch.
Qed.

Lemma getMetricValue_device (h : option Hierarchy.ChartData)
    (d : option Device.ChartData) (metric : jsval) :
  absent_or_empty (h ≫= Hierarchy.chartData) ->
  getMetricValue h d metric =
    match nonempty (d ≫= Device.chartData) ≫= last with
    | Some latest => device_reading latest metric
    | None => 0
    end.
Proof.
  intros Hh%nonempty_None. unfold getMetricValue. rewrite Hh.
  destruct (nonempty (d ≫= Device.chartData)) as [ds |] eqn:Hd;
    [ | reflexivity ].
  simpl. rewrite <- lookup_latest_last.
  destruct (getMetricValue_index_in_range _ _ Hd) as [latest Hl].
  rewrite Hl. apply device_switch.
Qed.

Lemma getMetricValue_hierarchy_snoc (pre : list Hierarchy.Sample)
    (x : Hierarchy.Sample) (d : option Device.ChartData) (metric : jsval) :
  getMetricValue (Some {| Hierarchy.chartData := Some (pre ++ [x]) |}) d metric
  = hierarchy_reading x metric.
Proof.
  destruct (getMetricValue_hierarchy
              (Some {| Hierarchy.chartData := Some (pre ++ [x]) |}) d metric
              (pre ++ [x])) as (latest & Hl & ->).
  - reflexivity.
  - destruct pre; discriminate.
  - rewrite last_snoc in Hl. injection Hl as <-. reflexivity.
Qed.

Lemma getMetricValue_device_snoc (h : option Hierarchy.ChartData)
    (pre : list Device.Sample) (x : Device.Sample) (metric : jsval) :
  absent_or_empty (h ≫= Hierarchy.chartData) ->
  getMetricValue h (Some {| Device.chartData := Some (pre ++ [x]) |}) metric
  = device_reading x metric.
Proof.
  intros Hh. rewrite (getMetricValue_device _ _ _ Hh).
  cbn [mbind option_bind Device.chartData].
  rewrite nonempty_snoc. simpl. rewrite last_snoc. reflexivity.
Qed.

Example getMetricValue_reads_latest :
  getMetricValue (Some sample_hierarchy) (Some sample_device) (VStr "ofr") = 40
  /\ getMetricValue (Some sample_hierarchy) (Some sample_device) (VStr "wfr") = 0
  /\ getMetricValue None (Some sample_device) (VStr "wfr") = 8
  /\ getMetricValue None (Some sample_device) (VStr "flow") = 0.
Proof. repeat split. Qed.

(** C5: [getMetricValue] reads the most recent sample only.  For a
    non-empty sequence, which ends in a sample [x], the value is the
    field of [x] for the metric ([totalOfr], [totalWfr], [totalGfr] in
    the hierarchy data, [ofr], [wfr], [gfr] in the device data, [0] when
    the field is absent), so two sequences that end in the same sample
    give the same value, whatever the earlier samples. *)
Theorem getMetricValue_last_sample_wins :
  (forall (pre : list Hierarchy.Sample) (x : Hierarchy.Sample)
          (d : option Device.ChartData),
      let h := Some {| Hierarchy.chartData := Some (pre ++ [x]) |} in
      getMetricValue h d (VStr "ofr") = num_or (Hierarchy.totalOfr x) 0 /\
      getMetricValue h d (VStr "wfr") = num_or (Hierarchy.totalWfr x) 0 /\
      getMetricValue h d (VStr "gfr") = num_or (Hierarchy.totalGfr x) 0 /\
      forall metric, getMetricValue h d metric = hierarchy_reading x metric) /\
  (forall (h : option Hierarchy.ChartData) (pre : list Device.Sample)
          (x : Device.Sample),
      absent_or_empty (h ≫= Hierarchy.chartData) ->
      let d := Some {| Device.chartData := Some (pre ++ [x]) |} in
      getMetricValue h d (VStr "ofr") = num_or (Device.ofr x) 0 /\
      getMetricValue h d (VStr "wfr") = num_or (Device.wfr x) 0 /\
      getMetricValue h d (VStr "gfr") = num_or (Device.gfr x) 0 /\
      forall metric, getMetricValue h d metric = device_reading x metric) /\
  (forall (metric : jsval) (d : option Device.ChartData)
          (pre1 pre2 : list Hierarchy.Sample) (x : Hierarchy.Sample),
      getMetricValue (Some {| Hierarchy.chartData := Some (pre1 ++ [x]) |})
        d metric
      = getMetricValue (Some {| Hierarchy.chartData := Some (pre2 ++ [x]) |})
          d metric) /\
  (forall (metric : jsval) (h : option Hierarchy.ChartData)
          (pre1 pre2 : list Device.Sample) (x : Device.Sample),
      getMetricValue h (Some {| Device.chartData := Some (pre1 ++ [x]) |})
        metric
      = getMetricValue h (Some {| Device.chartData := Some (pre2 ++ [x]) |})
          metric).
Proof.
  split; [ | split; [ | split ] ].
  - intros pre x d h. unfold h.
    rewrite !getMetricValue_hierarchy_snoc. repeat split.
    intros metric. apply getMetricValue_hierarchy_snoc.
  - intros h pre x Hh d. unfold d.
    rewrite !(getMetricValue_device_snoc _ _ _ _ Hh). repeat split.
    intros metric. now apply getMetricValue_device_snoc.
  - intros metric d pre1 pre2 x. now rewrite !getMetricValue_hierarchy_snoc.
  - intros metric h pre1 pre2 x.
    destruct (nonempty (h ≫= Hierarchy.chartData)) as [hs |] eqn:Hn.
    + unfold getMetricValue. rewrite Hn. reflexivity.
    + apply nonempty_None in Hn. now rewrite !getMetricValue_device_snoc.
Qed.

Lemma getMetricValue_last_sample_wins_witness :
  getMetricValue None
    (Some {| Device.chartData :=
               Some ([ {| Device.ofr := Some 1; Device.wfr := Some 2;
                          Device.gfr := Some 3 |} ]
                     ++ [ {| Device.ofr := Some 7; Device.wfr := Some 8;
                             Device.gfr := None |} ]) |})
    (VStr "wfr") = 8
  /\ getMetricValue (Some sample_hierarchy) (Some sample_device) (VStr "ofr")
     = 40.
Proof.
  split.
  - exact (proj1 (proj2
             (proj1 (proj2 getMetricValue_last_sample_wins) None
                [ {| Device.ofr := Some 1; Device.wfr := Some 2;
                     Device.gfr := Some 3 |} ]
                {| Device.ofr := Some 7; Device.wfr := Some 8;
                   Device.gfr := None |}
                (or_introl eq_refl)))).
  - exact (proj1
             (proj1 getMetricValue_last_sample_wins
                [ {| Hierarchy.totalOfr := Some 1; Hierarchy.totalWfr := Some 2;
                     Hierarchy.totalGfr := Some 3 |} ]
                {| Hierarchy.totalOfr := Some 40; Hierarchy.totalWfr := None;
                   Hierarchy.totalGfr := Some 60 |}
                (Some sample_device))).
Defined.

(** C10: a non-empty hierarchy sequence decides the value by its last
    sample alone, whatever the device data; the device data decides it
    only when the hierarchy sequence is absent or empty. *)
Theorem getMetricValue_hierarchy_precedence (h : option Hierarchy.ChartData)
    (metric : jsval) :
  (forall hs : list Hierarchy.Sample,
      h ≫= Hierarchy.chartData = Some hs -> hs <> [] ->
      exists latest,
        last hs = Some latest /\
        forall d : option Device.ChartData,
          getMetricValue h d metric = hierarchy_reading latest metric) /\
  (forall d1 d2 : option Device.ChartData,
      getMetricValue h d1 metric <> getMetricValue h d2 metric ->
      absent_or_empty (h ≫= Hierarchy.chartData)) /\
  (absent_or_empty (h ≫= Hierarchy.chartData) ->
   forall d : option Device.ChartData,
     getMetricValue h d metric =
       match nonempty (d ≫= Device.chartData) ≫= last with
       | Some latest => device_reading latest metric
       | None => 0
       end).
Proof.
  split; [ | split ].
  - intros hs Hh Hne.
    destruct (getMetricValue_hierarchy h None metric hs Hh Hne)
      as (latest & Hl & _).
    exists latest. split; [ exact Hl | ]. intros d.
    destruct (getMetricValue_hierarchy h d metric hs Hh Hne)
      as (latest' & Hl' & ->).
    congruence.
  - intros d1 d2 Hdiff.
    destruct (nonempty (h ≫= Hierarchy.chartData)) as [hs |] eqn:Hn.
    + exfalso. apply Hdiff. unfold getMetricValue. rewrite Hn. reflexivity.
    + now apply nonempty_None.
  - intros Hh d. now apply getMetricValue_device.
Qed.

Lemma getMetricValue_hierarchy_precedence_witness :
  getMetricValue (Some sample_hierarchy) (Some sample_device) (VStr "gfr") = 60
  /\ getMetricValue (Some sample_hierarchy) None (VStr "gfr") = 60.
Proof.
  destruct (proj1 (getMetricValue_hierarchy_precedence
                     (Some sample_hierarchy) (VStr "gfr"))
              _ eq_refl ltac:(discriminate)) as (latest & Hl & H).
  rewrite !H. injection Hl as <-. split; reflexivity.
Defined.

Lemma strict_eq_str_false (v : jsval) (lit : string) :
  v <> VStr lit -> strict_eq_str v lit = false.
Proof.
  intros H. destruct (strict_eq_str v lit) eqn:E; [ | reflexivity ].
  apply strict_eq_str_true in E. contradiction.
Qed.

Lemma getMetricValue_unrecognized (h : option Hierarchy.ChartData)
    (d : option Device.ChartData) (metric : jsval) :
  metric <> VStr "ofr" -> metric <> VStr "wfr" -> metric <> VStr "gfr" ->
  getMetricValue h d metric = 0.
Proof.
  intros H1%strict_eq_str_false H2%strict_eq_str_false H3%strict_eq_str_false.
  unfold getMetricValue. rewrite H1, H2, H3.
  repeat match goal with
         | |- context [match ?x with _ => _ end] => destruct x
         end; reflexivity.
Qed.

(** ** [handleDelete] *)

Example handleDelete_confirmed :
  handleDelete (sample_widget "MetricsCard" VUndef) (Some (fun _ => tt))
    (Some "jwt") (fun _ => true)
  = [Confirm (deleteMessage (sample_widget "MetricsCard" VUndef));
     OnDelete "layout-7"].
Proof. reflexivity. Qed.

Example deleteMessage_sample :
  String.length (deleteMessage (sample_widget "MetricsCard" VUndef)) = 43%nat
  /\ substring 0 33 (deleteMessage (sample_widget "MetricsCard" VUndef))
     = "Are you sure you want to delete " +:+ dquote
  /\ substring 33 10 (deleteMessage (sample_widget "MetricsCard" VUndef))
     = "Oil rate" +:+ dquote +:+ "?".
Proof. repeat split. Qed.

(** Takes apart the hypotheses on the members of a list of calls. *)
Ltac call_cases :=
  repeat match goal with
         | H : False |- _ => destruct H
         | H : _ \/ _ |- _ => destruct H as [H | H]
         | H : In _ [] |- _ => destruct H
         | H : In _ (_ :: _) |- _ => destruct H as [H | H]
         | H : Confirm _ = Confirm _ |- _ => injection H as H; subst
         | H : OnDelete _ = OnDelete _ |- _ => injection H as H; subst
         | H : Confirm _ = OnDelete _ |- _ => discriminate H
         | H : OnDelete _ = Confirm _ |- _ => discriminate H
         | H : _ :: _ = [] |- _ => discriminate H
         | H : exists _, _ |- _ => destruct H
         | H : _ /\ _ |- _ => destruct H
         | H : is_Some None |- _ => destruct (is_Some_None H)
         end.

(** C6: [handleDelete] invokes [onDelete], with [widget.layoutId],
    if and only if the callback is provided and the user confirms the
    dialog; it invokes it with nothing else, and never when the user
    declines.  The dialog itself is gated: without the callback or
    without an auth token [handleDelete] makes no call at all, so that no
    dialog is shown and nobody confirms; with both it shows one dialog,
    whose message names the widget. *)
Theorem handleDelete_gated (widget : WidgetConfig)
    (onDelete : option (string -> unit)) (token : option string)
    (confirm : string -> bool) :
  let calls := handleDelete widget onDelete token confirm in
  (In (OnDelete (layoutId widget)) calls
   <-> is_Some onDelete /\ user_confirms confirm calls) /\
  (forall id : string, In (OnDelete id) calls -> id = layoutId widget) /\
  (user_declines confirm calls ->
   forall id : string, ~ In (OnDelete id) calls) /\
  (confirm (deleteMessage widget) = false ->
   forall id : string, ~ In (OnDelete id) calls) /\
  (calls = [] <-> ~ (is_Some onDelete /\ token_truthy token = true)) /\
  (forall message : string,
      In (Confirm message) calls -> message = deleteMessage widget) /\
  (is_Some onDelete -> token_truthy token = true ->
   calls = if confirm (deleteMessage widget)
           then [Confirm (deleteMessage widget); OnDelete (layoutId widget)]
           else [Confirm (deleteMessage widget)]).
Proof.
  unfold handleDelete, user_confirms, user_declines.
  destruct onDelete as [cb |]; destruct (token_truthy token);
    destruct (confirm (deleteMessage widget)) eqn:Hc; simpl;
    repeat split; intros; call_cases; try congruence; try tauto;
    try (eexists; reflexivity);
    try (exists (deleteMessage widget); simpl; auto);
    try (intros Hin; call_cases; discriminate);
    try (exfalso;
         match goal with
         | H : ~ _ |- _ =>
             apply H; split; [ eexists; reflexivity | reflexivity ]
         end).
Qed.

Lemma handleDelete_gated_witness :
  In (OnDelete "layout-7")
    (handleDelete (sample_widget "MetricsCard" VUndef) (Some (fun _ => tt))
       (Some "jwt") (fun _ => true)).
Proof.
  apply (proj1 (handleDelete_gated (sample_widget "MetricsCard" VUndef)
                  (Some (fun _ => tt)) (Some "jwt") (fun _ => true))).
  split; [ eexists; reflexivity | ].
  exists (deleteMessage (sample_widget "MetricsCard" VUndef)).
  split; [ left; reflexivity | reflexivity ].
Defined.

(** Without a token nothing happens at all. *)
Lemma handleDelete_without_token (widget : WidgetConfig)
    (onDelete : option (string -> unit)) (token : option string)
    (confirm : string -> bool) :
  token_truthy token = false ->
  handleDelete widget onDelete token confirm = [].
Proof.
  intros Ht. unfold handleDelete. rewrite Ht.
  now rewrite orb_true_r.
Qed.

(** ** The dispatch on [widget.component] *)

Section Dispatch.

Context {Date : Type} (toLocaleTimeString : Date -> string).

Example WidgetRenderer_sample_unknown :
  WidgetRenderer sample_clock (sample_props "PieChart" VUndef) "dark" 320
  = UnknownWidgetView
      "h-full rounded-lg p-4 flex items-center justify-center bg-[#162345] text-white"
      "Unknown widget type:" "PieChart".
Proof. reflexivity. Qed.

(** C2: a widget whose component is none of ['CustomLineChart'],
    ['MetricsCard'], ['GVFWLRChart'] and ['ProductionMap'] renders the
    fallback element, which shows 'Unknown widget type:' and the
    component string. *)
Theorem WidgetRenderer_unknown_component (props : WidgetRendererProps Date)
    (theme : string) (containerWidth : Q) :
  component (widget props) <> "CustomLineChart" ->
  component (widget props) <> "MetricsCard" ->
  component (widget props) <> "GVFWLRChart" ->
  component (widget props) <> "ProductionMap" ->
  WidgetRenderer toLocaleTimeString props theme containerWidth
  = UnknownWidgetView
      ("h-full rounded-lg p-4 flex items-center justify-center "
       +:+ (if String.eqb theme "dark" then "bg-[#162345] text-white"
            else "bg-white border border-gray-200 text-gray-900"))
      "Unknown widget type:" (component (widget props)).
Proof.
  intros H1%String.eqb_neq H2%String.eqb_neq H3%String.eqb_neq
         H4%String.eqb_neq.
  unfold WidgetRenderer. rewrite H1, H2, H3, H4. reflexivity.
Qed.

(** The fallback is taken for no recognised component. *)
Lemma WidgetRenderer_unknown_only (props : WidgetRendererProps Date)
    (theme : string) (containerWidth : Q) (cls label shown : string) :
  WidgetRenderer toLocaleTimeString props theme containerWidth
  = UnknownWidgetView cls label shown ->
  ~ In (component (widget props))
      ["CustomLineChart"; "MetricsCard"; "GVFWLRChart"; "ProductionMap"].
Proof.
  unfold WidgetRenderer. intros H Hin. simpl in Hin.
  destruct Hin as [E | [E | [E | [E | []]]]]; rewrite <- E in H;
    cbn [String.eqb Ascii.eqb Bool.eqb] in H; try discriminate.
  destruct (strict_eq_str _ _) in H; discriminate.
Qed.

End Dispatch.

Lemma WidgetRenderer_unknown_component_witness :
  WidgetRenderer sample_clock (sample_props "Gauge" VUndef) "light" 320
  = UnknownWidgetView
      "h-full rounded-lg p-4 flex items-center justify-center bg-white border border-gray-200 text-gray-900"
      "Unknown widget type:" "Gauge".
Proof.
  apply (WidgetRenderer_unknown_component sample_clock
           (sample_props "Gauge" VUndef) "light" 320); discriminate.
Defined.

(** ** The metrics card *)

Example toFixed_zero : toFixed 0 2 = Some "0.00".
Proof. vm_compute. reflexivity. Qed.

Example WidgetRenderer_sample_card :
  let v := WidgetRenderer sample_clock
             (sample_props "MetricsCard"
                (VObj {[ "metric" := VStr "ofr"; "unit" := VStr "bbl/d" ]}))
             "dark" 200 in
  (title <$> card_of v) = Some (VStr "Metric") /\
  (valueText <$> card_of v) = Some (Some "40.00") /\
  (card_of v ≫= unitSpan) = Some {| unitSize := Math.max 10 (Math.min 16 (200 * 0.08));
                                    unitColor := "#D0CCD8";
                                    unitText := VStr "bbl/d" |} /\
  (padding <$> card_of v) = Some 12 /\
  (gap <$> card_of v) = Some 10.
Proof. vm_compute. repeat split. Qed.

Section MetricsCard.

Context {Date : Type} (toLocaleTimeString : Date -> string).

(** Both branches of the ['MetricsCard'] case build a card. *)
Lemma WidgetRenderer_MetricsCard (props : WidgetRendererProps Date)
    (theme : string) (containerWidth : Q) :
  component (widget props) = "MetricsCard" ->
  exists card,
    WidgetRenderer toLocaleTimeString props theme containerWidth
    = MetricsCardView card /\
    padding card =
      (if Qlt_le_dec containerWidth 150 then 8
       else if Qlt_le_dec containerWidth 250 then 12 else 16) /\
    gap card =
      (if Qlt_le_dec containerWidth 150 then 8
       else if Qlt_le_dec containerWidth 250 then 10 else 12).
Proof.
  intros Hc. unfold WidgetRenderer. rewrite Hc.
  cbn [String.eqb Ascii.eqb Bool.eqb].
  destruct (strict_eq_str _ "last_refresh");
    eexists; (split; [ reflexivity | ]); split; reflexivity.
Qed.

(** C7: in a metrics card whose data-source fields are missing the
    value is [0], shown as '0.00', the title is 'Metric' and the unit is
    'l/min'; and [getMetricValue] is [0] when both sources are absent or
    empty, when the field of the latest sample is absent, and when the
    metric is not one of 'ofr', 'wfr', 'gfr'. *)
Theorem metric_formatting_defaults (props : WidgetRendererProps Date)
    (theme : string) (containerWidth : Q) :
  (component (widget props) = "MetricsCard" ->
   prop (dsConfig (widget props)) "metric" <> VStr "last_refresh" ->
   exists card span,
     WidgetRenderer toLocaleTimeString props theme containerWidth
     = MetricsCardView card /\
     unitSpan card = Some span /\
     valueText card =
       toFixed (getMetricValue (hierarchyChartData props) (chartData props)
                  (prop (dsConfig (widget props)) "metric")) 2 /\
     (getMetricValue (hierarchyChartData props) (chartData props)
        (prop (dsConfig (widget props)) "metric") = 0 ->
      valueText card = Some "0.00") /\
     (prop (dsConfig (widget props)) "metric" = VUndef ->
      valueText card = Some "0.00") /\
     (prop (dsConfig (widget props)) "title" = VUndef ->
      title card = VStr "Metric") /\
     (prop (dsConfig (widget props)) "unit" = VUndef ->
      unitText span = VStr "l/min")) /\
  (forall (h : option Hierarchy.ChartData) (d : option Device.ChartData)
          (metric : jsval),
      absent_or_empty (h ≫= Hierarchy.chartData) ->
      absent_or_empty (d ≫= Device.chartData) ->
      getMetricValue h d metric = 0) /\
  (forall (pre : list Hierarchy.Sample) (x : Hierarchy.Sample)
          (d : option Device.ChartData),
      let h := Some {| Hierarchy.chartData := Some (pre ++ [x]) |} in
      (Hierarchy.totalOfr x = None -> getMetricValue h d (VStr "ofr") = 0) /\
      (Hierarchy.totalWfr x = None -> getMetricValue h d (VStr "wfr") = 0) /\
      (Hierarchy.totalGfr x = None -> getMetricValue h d (VStr "gfr") = 0)) /\
  (forall (h : option Hierarchy.ChartData) (pre : list Device.Sample)
          (x : Device.Sample),
      absent_or_empty (h ≫= Hierarchy.chartData) ->
      let d := Some {| Device.chartData := Some (pre ++ [x]) |} in
      (Device.ofr x = None -> getMetricValue h d (VStr "ofr") = 0) /\
      (Device.wfr x = None -> getMetricValue h d (VStr "wfr") = 0) /\
      (Device.gfr x = None -> getMetricValue h d (VStr "gfr") = 0)) /\
  (forall (h : option Hierarchy.ChartData) (d : option Device.ChartData)
          (metric : jsval),
      metric <> VStr "ofr" -> metric <> VStr "wfr" -> metric <> VStr "gfr" ->
      getMetricValue h d metric = 0).
Proof.
  split; [ | split; [ | split; [ | split ] ] ].
  - intros Hc Hm%strict_eq_str_false. unfold WidgetRenderer. rewrite Hc.
    cbn [String.eqb Ascii.eqb Bool.eqb]. rewrite Hm.
    eexists. eexists. split; [ reflexivity | ].
    cbn [unitSpan valueText title unitText].
    split; [ reflexivity | ]. split; [ reflexivity | ].
    split; [ | split; [ | split ] ].
    + intros ->. vm_compute. reflexivity.
    + intros ->. rewrite getMetricValue_unrecognized by discriminate.
      vm_compute. reflexivity.
    + intros ->. reflexivity.
    + intros ->. reflexivity.
  - intros h d metric Hh Hd. rewrite (getMetricValue_device _ _ _ Hh).
    apply nonempty_None in Hd. rewrite Hd. reflexivity.
  - intros pre x d h. unfold h. rewrite !getMetricValue_hierarchy_snoc.
    simpl. repeat split; intros ->; reflexivity.
  - intros h pre x Hh d. unfold d.
    rewrite !(getMetricValue_device_snoc _ _ _ _ Hh).
    simpl. repeat split; intros ->; reflexivity.
  - apply getMetricValue_unrecognized.
Qed.

End MetricsCard.

Lemma metric_formatting_defaults_witness :
  exists card span,
    WidgetRenderer sample_clock (sample_props "MetricsCard" VUndef) "dark" 320
    = MetricsCardView card /\
    unitSpan card = Some span /\
    valueText card = Some "0.00" /\
    title card = VStr "Metric" /\
    unitText span = VStr "l/min".
Proof.
  destruct (proj1 (metric_formatting_defaults sample_clock
                     (sample_props "MetricsCard" VUndef) "dark" 320)
              eq_refl ltac:(discriminate))
    as (card & span & Hv & Hs & _ & _ & H0 & Ht & Hu).
  exists card, span.
  split; [ exact Hv | ]. split; [ exact Hs | ].
  split; [ apply H0; reflexivity | ].
  split; [ apply Ht; reflexivity | apply Hu; reflexivity ].
Defined.

(** C9 as stated fails: at width [200] the card is laid out with a gap
    of [10], where [getResponsiveGap] gives [12]. *)
Lemma MetricsCard_gap_differs :
  (gap <$> card_of (WidgetRenderer sample_clock
                      (sample_props "MetricsCard" VUndef) "dark" 200))
  = Some 10 /\
  (gap <$> card_of (WidgetRenderer sample_clock
                      (sample_props "MetricsCard"
                         (VObj {[ "metric" := VStr "last_refresh" ]}))
                      "dark" 200))
  = Some 10 /\
  getResponsiveGap 200 = 12 /\
  ~ 10 == 12.
Proof.
  split; [ vm_compute; reflexivity | ].
  split; [ vm_compute; reflexivity | ].
  split; [ reflexivity | ].
  intros H. vm_compute in H. discriminate.
Qed.

Section MetricsCardSpacing.

Context {Date : Type} (toLocaleTimeString : Date -> string).

(** C9 (amended): in both branches of the metrics card the inline
    padding is [getResponsivePadding] of the container width; the inline
    gap is [8] below [150], [10] from [150] up to [250] and [12] from
    [250] on, so it is [getResponsiveGap] of the width below [150] and
    differs from it from [150] on. *)
Theorem MetricsCard_spacing (props : WidgetRendererProps Date)
    (theme : string) (containerWidth : Q) :
  component (widget props) = "MetricsCard" ->
  exists card,
    WidgetRenderer toLocaleTimeString props theme containerWidth
    = MetricsCardView card /\
    padding card = getResponsivePadding containerWidth /\
    gap card =
      (if Qlt_le_dec containerWidth 150 then 8
       else if Qlt_le_dec containerWidth 250 then 10 else 12) /\
    (containerWidth < 150 -> gap card = getResponsiveGap containerWidth) /\
    (150 <= containerWidth -> ~ gap card == getResponsiveGap containerWidth).
Proof.
  intros Hc.
  destruct (WidgetRenderer_MetricsCard toLocaleTimeString props theme
              containerWidth Hc) as (card & Hv & Hp & Hg).
  exists card. split; [ exact Hv | ].
  rewrite Hp, Hg. unfold getResponsivePadding, getResponsiveGap.
  repeat split; try intros Hw; breakpoints;
    try reflexivity; try lra; intros Heq; vm_compute in Heq; discriminate.
Qed.

End MetricsCardSpacing.

Lemma MetricsCard_spacing_witness :
  exists card,
    WidgetRenderer sample_clock (sample_props "MetricsCard" VUndef) "light" 100
    = MetricsCardView card /\
    padding card = getResponsivePadding 100 /\
    gap card = getResponsiveGap 100.
Proof.
  destruct (MetricsCard_spacing sample_clock
              (sample_props "MetricsCard" VUndef) "light" 100 eq_refl)
    as (card & Hv & Hp & _ & Hlt & _).
  exists card. split; [ exact Hv | ]. split; [ exact Hp | ].
  apply Hlt. lra.
Defined.

(** * Further properties of the code *)

(** ** The sizes of the metrics card *)

(** Splits the tests of [Math.min], then those of [Math.max] around
    them. *)
Ltac clamps :=
  unfold Math.min; breakpoints; unfold Math.max; breakpoints.

Lemma clamp_bounds (lo hi x : Q) :
  lo <= hi -> lo <= Math.max lo (Math.min hi x) <= hi.
Proof.
  intros H. unfold Math.min.
  destruct (Qlt_le_dec x hi); unfold Math.max; breakpoints; lra.
Qed.

Lemma clamp_monotone (lo hi x y : Q) :
  x <= y -> Math.max lo (Math.min hi x) <= Math.max lo (Math.min hi y).
Proof.
  intros H. unfold Math.min.
  destruct (Qlt_le_dec x hi); destruct (Qlt_le_dec y hi);
    unfold Math.max; breakpoints; lra.
Qed.

Lemma clamp_saturated_hi (lo hi x : Q) :
  hi <= x -> Math.max lo (Math.min hi x) = Math.max lo hi.
Proof.
  intros H. unfold Math.min.
  destruct (Qlt_le_dec x hi); [ lra | reflexivity ].
Qed.

Lemma clamp_saturated_lo (lo hi x : Q) :
  lo <= hi -> x <= lo -> Math.max lo (Math.min hi x) = lo.
Proof.
  intros Hlh H. unfold Math.min, Math.max.
  destruct (Qlt_le_dec x hi); destruct (Qlt_le_dec lo _);
    solve [ reflexivity | lra ].
Qed.

Section CardSizes.

Context {Date : Type} (toLocaleTimeString : Date -> string).

(** The sizes both card branches compute from the width; the unit span
    is there in the metric branch only. *)
Lemma WidgetRenderer_card_sizes (props : WidgetRendererProps Date)
    (theme : string) (containerWidth : Q) :
  component (widget props) = "MetricsCard" ->
  exists card,
    WidgetRenderer toLocaleTimeString props theme containerWidth
    = MetricsCardView card /\
    padding card =
      (if Qlt_le_dec containerWidth 150 then 8
       else if Qlt_le_dec containerWidth 250 then 12 else 16) /\
    gap card =
      (if Qlt_le_dec containerWidth 150 then 8
       else if Qlt_le_dec containerWidth 250 then 10 else 12) /\
    iconSize card = Math.max 32 (Math.min 40 (containerWidth * 0.25)) /\
    titleSize card = Math.max 10 (Math.min 14 (containerWidth * 0.08)) /\
    valueSize card = Math.max 18 (Math.min 36 (containerWidth * 0.3)) /\
    (forall span, unitSpan card = Some span ->
       unitSize span = Math.max 10 (Math.min 16 (containerWidth * 0.08))) /\
    (is_Some (unitSpan card) <->
     prop (dsConfig (widget props)) "metric" <> VStr "last_refresh").
Proof.
  intros Hc. unfold WidgetRenderer. rewrite Hc.
  cbn [String.eqb Ascii.eqb Bool.eqb].
  destruct (strict_eq_str _ "last_refresh") eqn:E;
    eexists; (split; [ reflexivity | ]);
    cbn [padding gap iconSize titleSize valueSize unitSpan];
    repeat (split; [ reflexivity | ]).
  - split; [ intros span [=] | ].
    apply strict_eq_str_true in E. split.
    + intros [? [=]].
    + intros H. contradiction.
  - split; [ intros span [= <-]; reflexivity | ].
    split; [ | eauto ].
    intros _ H. rewrite H in E. discriminate.
Qed.

(** X1: whatever the container width, a metrics card has an icon of 32
    to 40 pixels, a title of 10 to 14, a value of 18 to 36 and, where it
    shows a unit, a unit of 10 to 16; its padding is 8 to 16 and its gap
    8 to 12. *)
Theorem MetricsCard_size_bounds (props : WidgetRendererProps Date)
    (theme : string) (containerWidth : Q) :
  component (widget props) = "MetricsCard" ->
  exists card,
    WidgetRenderer toLocaleTimeString props theme containerWidth
    = MetricsCardView card /\
    32 <= iconSize card <= 40 /\
    10 <= titleSize card <= 14 /\
    18 <= valueSize card <= 36 /\
    8 <= padding card <= 16 /\
    8 <= gap card <= 12 /\
    (forall span, unitSpan card = Some span -> 10 <= unitSize span <= 16).
Proof.
  intros Hc.
  destruct (WidgetRenderer_card_sizes props theme containerWidth Hc)
    as (card & Hv & Hp & Hg & Hi & Ht & Hval & Hu & _).
  exists card. split; [ exact Hv | ].
  rewrite Hp, Hg, Hi, Ht, Hval.
  repeat split; try (apply clamp_bounds; lra); breakpoints; try lra;
    intros; rewrite (Hu _ ltac:(eassumption)); apply clamp_bounds; lra.
Qed.

(** X2: in every metrics card the value is set larger than the unit,
    and the unit at least as large as the title. *)
Theorem MetricsCard_size_order (props : WidgetRendererProps Date)
    (theme : string) (containerWidth : Q) :
  component (widget props) = "MetricsCard" ->
  exists card,
    WidgetRenderer toLocaleTimeString props theme containerWidth
    = MetricsCardView card /\
    titleSize card < valueSize card /\
    gap card <= padding card /\
    (forall span, unitSpan card = Some span ->
       titleSize card <= unitSize span /\ unitSize span < valueSize card).
Proof.
  intros Hc.
  destruct (WidgetRenderer_card_sizes props theme containerWidth Hc)
    as (card & Hv & Hp & Hg & Hi & Ht & Hval & Hu & _).
  exists card. split; [ exact Hv | ].
  rewrite Hp, Hg, Ht, Hval.
  split; [ | split ].
  - clamps; lra.
  - breakpoints; lra.
  - intros span Hs. rewrite (Hu _ Hs). clamps; lra.
Qed.

(** X3: a wider container never gives a smaller card layout: padding,
    gap and the icon, title, value and unit sizes are monotonic in the
    container width. *)
Theorem MetricsCard_sizes_monotone (props : WidgetRendererProps Date)
    (theme : string) (w1 w2 : Q) :
  component (widget props) = "MetricsCard" ->
  w1 <= w2 ->
  exists card1 card2,
    WidgetRenderer toLocaleTimeString props theme w1 = MetricsCardView card1 /\
    WidgetRenderer toLocaleTimeString props theme w2 = MetricsCardView card2 /\
    padding card1 <= padding card2 /\
    gap card1 <= gap card2 /\
    iconSize card1 <= iconSize card2 /\
    titleSize card1 <= titleSize card2 /\
    valueSize card1 <= valueSize card2 /\
    (forall span1 span2,
        unitSpan card1 = Some span1 -> unitSpan card2 = Some span2 ->
        unitSize span1 <= unitSize span2).
Proof.
  intros Hc Hle.
  destruct (WidgetRenderer_card_sizes props theme w1 Hc)
    as (card1 & Hv1 & Hp1 & Hg1 & Hi1 & Ht1 & Hval1 & Hu1 & _).
  destruct (WidgetRenderer_card_sizes props theme w2 Hc)
    as (card2 & Hv2 & Hp2 & Hg2 & Hi2 & Ht2 & Hval2 & Hu2 & _).
  exists card1, card2. split; [ exact Hv1 | ]. split; [ exact Hv2 | ].
  rewrite Hp1, Hp2, Hg1, Hg2, Hi1, Hi2, Ht1, Ht2, Hval1, Hval2.
  split; [ breakpoints; lra | ]. split; [ breakpoints; lra | ].
  split; [ apply clamp_monotone; lra | ].
  split; [ apply clamp_monotone; lra | ].
  split; [ apply clamp_monotone; lra | ].
  intros span1 span2 Hs1 Hs2. rewrite (Hu1 _ Hs1), (Hu2 _ Hs2).
  apply clamp_monotone; lra.
Qed.

(** X4: the card stops scaling outside the widths 60 to 250: all
    container widths of at least 250 render the same element, and so do
    all widths of at most 60. *)
Theorem MetricsCard_constant_outside (props : WidgetRendererProps Date)
    (theme : string) (w1 w2 : Q) :
  component (widget props) = "MetricsCard" ->
  (250 <= w1 /\ 250 <= w2) \/ (w1 <= 60 /\ w2 <= 60) ->
  WidgetRenderer toLocaleTimeString props theme w1
  = WidgetRenderer toLocaleTimeString props theme w2.
Proof.
  intros Hc Hw. unfold WidgetRenderer. rewrite Hc.
  cbn [String.eqb Ascii.eqb Bool.eqb].
  destruct Hw as [[H1 H2] | [H1 H2]].
  - rewrite !(clamp_saturated_hi _ _ (w1 * _)) by lra.
    rewrite !(clamp_saturated_hi _ _ (w2 * _)) by lra.
    destruct (Qlt_le_dec w1 150); [ lra | ].
    destruct (Qlt_le_dec w1 250); [ lra | ].
    destruct (Qlt_le_dec w2 150); [ lra | ].
    destruct (Qlt_le_dec w2 250); [ lra | ].
    reflexivity.
  - rewrite !(clamp_saturated_lo _ _ (w1 * _)) by lra.
    rewrite !(clamp_saturated_lo _ _ (w2 * _)) by lra.
    destruct (Qlt_le_dec w1 150); [ | lra ].
    destruct (Qlt_le_dec w2 150); [ | lra ].
    reflexivity.
Qed.

End CardSizes.

Lemma MetricsCard_size_bounds_witness :
  exists card,
    WidgetRenderer sample_clock (sample_props "MetricsCard" VUndef) "dark" 140
    = MetricsCardView card /\
    32 <= iconSize card <= 40 /\
    10 <= titleSize card <= 14 /\
    18 <= valueSize card <= 36 /\
    8 <= padding card <= 16 /\
    8 <= gap card <= 12 /\
    (forall span, unitSpan card = Some span -> 10 <= unitSize span <= 16).
Proof.
  exact (MetricsCard_size_bounds sample_clock
           (sample_props "MetricsCard" VUndef) "dark" 140 eq_refl).
Defined.

Lemma MetricsCard_size_order_witness :
  exists card,
    WidgetRenderer sample_clock (sample_props "MetricsCard" VUndef) "dark" 140
    = MetricsCardView card /\
    titleSize card < valueSize card /\
    gap card <= padding card /\
    (forall span, unitSpan card = Some span ->
       titleSize card <= unitSize span /\ unitSize span < valueSize card).
Proof.
  exact (MetricsCard_size_order sample_clock
           (sample_props "MetricsCard" VUndef) "dark" 140 eq_refl).
Defined.

Lemma MetricsCard_sizes_monotone_witness :
  exists card1 card2,
    WidgetRenderer sample_clock (sample_props "MetricsCard" VUndef) "dark" 90
    = MetricsCardView card1 /\
    WidgetRenderer sample_clock (sample_props "MetricsCard" VUndef) "dark" 180
    = MetricsCardView card2 /\
    padding card1 <= padding card2 /\
    gap card1 <= gap card2 /\
    iconSize card1 <= iconSize card2 /\
    titleSize card1 <= titleSize card2 /\
    valueSize card1 <= valueSize card2 /\
    (forall span1 span2,
        unitSpan card1 = Some span1 -> unitSpan card2 = Some span2 ->
        unitSize span1 <= unitSize span2).
Proof.
  apply (MetricsCard_sizes_monotone sample_clock
           (sample_props "MetricsCard" VUndef) "dark" 90 180 eq_refl).
  lra.
Defined.

Lemma MetricsCard_constant_outside_witness :
  WidgetRenderer sample_clock (sample_props "MetricsCard" VUndef) "dark" 250
  = WidgetRenderer sample_clock (sample_props "MetricsCard" VUndef) "dark" 1200.
Proof.
  apply (MetricsCard_constant_outside sample_clock
           (sample_props "MetricsCard" VUndef) "dark" 250 1200 eq_refl).
  left. split; lra.
Defined.

(** ** What the element depends on *)

Section Dependence.

Context {Date : Type} (toLocaleTimeString : Date -> string).

(** X5: only the metrics card reads the container width: for every
    other component the element is the same at all widths. *)
Theorem WidgetRenderer_width_only_in_card (props : WidgetRendererProps Date)
    (theme : string) (w1 w2 : Q) :
  component (widget props) <> "MetricsCard" ->
  WidgetRenderer toLocaleTimeString props theme w1
  = WidgetRenderer toLocaleTimeString props theme w2.
Proof.
  intros Hc%String.eqb_neq. unfold WidgetRenderer. rewrite Hc.
  reflexivity.
Qed.

(** X6: the theme matters only through the test [theme === 'dark']:
    any two themes other than 'dark' render the same element. *)
Theorem WidgetRenderer_light_themes (props : WidgetRendererProps Date)
    (theme1 theme2 : string) (containerWidth : Q) :
  theme1 <> "dark" -> theme2 <> "dark" ->
  WidgetRenderer toLocaleTimeString props theme1 containerWidth
  = WidgetRenderer toLocaleTimeString props theme2 containerWidth.
Proof.
  intros H1%String.eqb_neq H2%String.eqb_neq. unfold WidgetRenderer.
  rewrite H1, H2. reflexivity.
Qed.

(** X7: the branch is decided by [widget.component] alone, by exact,
    case-sensitive match: each of the four component names selects its
    own branch for all props, themes and widths, and the default branch
    is taken exactly for the other strings. *)
Theorem WidgetRenderer_dispatch (props : WidgetRendererProps Date)
    (theme : string) (containerWidth : Q) :
  let v := WidgetRenderer toLocaleTimeString props theme containerWidth in
  (branch_of v = CustomLineChartBranch
   <-> component (widget props) = "CustomLineChart") /\
  (branch_of v = MetricsCardBranch
   <-> component (widget props) = "MetricsCard") /\
  (branch_of v = GVFWLRChartBranch
   <-> component (widget props) = "GVFWLRChart") /\
  (branch_of v = ProductionMapBranch
   <-> component (widget props) = "ProductionMap") /\
  (branch_of v = DefaultBranch
   <-> ~ In (component (widget props))
          ["CustomLineChart"; "MetricsCard"; "GVFWLRChart"; "ProductionMap"]).
Proof.
  unfold WidgetRenderer.
  destruct (String.eqb_spec (component (widget props)) "CustomLineChart")
    as [E1 | N1];
    [ rewrite E1; simpl; intuition (discriminate || eauto) | ].
  destruct (String.eqb_spec (component (widget props)) "MetricsCard")
    as [E2 | N2];
    [ rewrite E2; destruct (strict_eq_str _ "last_refresh"); simpl;
      intuition (discriminate || eauto) | ].
  destruct (String.eqb_spec (component (widget props)) "GVFWLRChart")
    as [E3 | N3];
    [ rewrite E3; simpl; intuition (discriminate || eauto) | ].
  destruct (String.eqb_spec (component (widget props)) "ProductionMap")
    as [E4 | N4];
    [ rewrite E4; simpl; intuition (discriminate || eauto) | ].
  simpl. intuition (discriminate || congruence || eauto).
Qed.

(** X8: a delete button is rendered exactly for a line-chart widget with
    [isAdmin] true and an [onDelete] callback; no other branch has one,
    and without [isAdmin] (its default is false) there is none. *)
Theorem WidgetRenderer_delete_button (props : WidgetRendererProps Date)
    (theme : string) (containerWidth : Q) :
  is_Some (deleteButton_of
             (WidgetRenderer toLocaleTimeString props theme containerWidth))
  <-> component (widget props) = "CustomLineChart"
      /\ isAdmin props = Some true
      /\ is_Some (onDelete props).
Proof.
  unfold WidgetRenderer.
  destruct (String.eqb_spec (component (widget props)) "CustomLineChart")
    as [E1 | N1].
  - cbn [deleteButton_of].
    destruct (isAdmin props) as [[|] |]; cbn [default andb];
      [ destruct (onDelete props) as [cb |] | | ].
    + rewrite bool_decide_true by eauto. split; eauto.
    + rewrite bool_decide_false by apply is_Some_None.
      split; [ intros [? [=]] | intros (_ & _ & []%is_Some_None) ].
    + split; [ intros [? [=]] | intros (_ & [=] & _) ].
    + split; [ intros [? [=]] | intros (_ & [=] & _) ].
  - assert (Hnone : forall v : view,
               branch_of v <> CustomLineChartBranch ->
               deleteButton_of v = None)
      by (intros []; simpl; congruence).
    rewrite Hnone.
    + split; [ intros [? [=]] | intros (E & _); contradiction ].
    + repeat match goal with
             | |- context [if ?b then _ else _] => destruct b
             end; discriminate.
Qed.

(** X9: when the delete button is on screen, a click shows the dialog
    exactly when an auth token is there; without a token the click does
    nothing, and with one the layout id is passed on if the user
    confirms. *)
Theorem delete_button_click (props : WidgetRendererProps Date)
    (theme : string) (containerWidth : Q) (token : option string)
    (confirm : string -> bool) :
  is_Some (deleteButton_of
             (WidgetRenderer toLocaleTimeString props theme containerWidth)) ->
  handleDelete (widget props) (onDelete props) token confirm
  = if token_truthy token then
      if confirm (deleteMessage (widget props))
      then [Confirm (deleteMessage (widget props));
            OnDelete (layoutId (widget props))]
      else [Confirm (deleteMessage (widget props))]
    else [].
Proof.
  intros Hb.
  assert (Hcb : is_Some (onDelete props)).
  { unfold WidgetRenderer in Hb.
    destruct (String.eqb (component (widget props)) "CustomLineChart").
    - cbn [deleteButton_of] in Hb.
      destruct (bool_decide (is_Some (onDelete props))) eqn:E.
      + now apply bool_decide_eq_true in E.
      + rewrite andb_false_r in Hb. destruct Hb as [? [=]].
    - exfalso.
      repeat match type of Hb with
             | context [if ?b then _ else _] => destruct b
             end; destruct Hb as [? [=]]. }
  unfold handleDelete. rewrite bool_decide_true by exact Hcb.
  destruct (token_truthy token); [ | reflexivity ].
  destruct (confirm (deleteMessage (widget props))); reflexivity.
Qed.

End Dependence.

Lemma WidgetRenderer_width_only_in_card_witness :
  WidgetRenderer sample_clock (sample_props "GVFWLRChart" VUndef) "dark" 0
  = WidgetRenderer sample_clock (sample_props "GVFWLRChart" VUndef) "dark" 640.
Proof.
  apply (WidgetRenderer_width_only_in_card sample_clock
           (sample_props "GVFWLRChart" VUndef) "dark" 0 640).
  discriminate.
Defined.

Lemma WidgetRenderer_light_themes_witness :
  WidgetRenderer sample_clock (sample_props "MetricsCard" VUndef) "light" 200
  = WidgetRenderer sample_clock (sample_props "MetricsCard" VUndef) "Dark" 200.
Proof.
  apply (WidgetRenderer_light_themes sample_clock
           (sample_props "MetricsCard" VUndef) "light" "Dark" 200);
    discriminate.
Defined.

Lemma delete_button_click_witness :
  handleDelete (widget (sample_props "CustomLineChart" VUndef))
    (onDelete (sample_props "CustomLineChart" VUndef)) None (fun _ => true)
  = [].
Proof.
  apply (delete_button_click sample_clock
           (sample_props "CustomLineChart" VUndef) "dark" 0 None
           (fun _ => true)).
  eexists. reflexivity.
Defined.

(** ** The calls of [handleDelete] *)

(** X10: [handleDelete] makes at most two calls; the dialog, if shown,
    comes first and only once, with the message built from the widget
    name; [onDelete], if called, is the second call, right after the
    dialog. *)
Theorem handleDelete_call_order (widget : WidgetConfig)
    (onDelete : option (string -> unit)) (token : option string)
    (confirm : string -> bool) :
  let calls := handleDelete widget onDelete token confirm in
  (length calls <= 2)%nat /\
  (forall (i : nat) (message : string),
      calls !! i = Some (Confirm message) ->
      i = 0%nat /\ message = deleteMessage widget) /\
  (forall (i : nat) (id : string),
      calls !! i = Some (OnDelete id) ->
      i = 1%nat /\ calls !! 0%nat = Some (Confirm (deleteMessage widget))).
Proof.
  unfold handleDelete.
  destruct (negb (bool_decide (is_Some onDelete)) || negb (token_truthy token));
    [ | destruct (negb (confirm (deleteMessage widget))) ];
    cbn [length]; (split; [ lia | ]); split; intros [| [| i]] x H;
    simpl in H; try discriminate; injection H as <-; auto.
Qed.

Lemma string_length_app (s t : string) :
  String.length (s +:+ t) = (String.length s + String.length t)%nat.
Proof. induction s as [| c s IH]; simpl; [ reflexivity | now rewrite IH ]. Qed.

Lemma string_app_inj_r (s1 s2 t : string) :
  s1 +:+ t = s2 +:+ t -> s1 = s2.
Proof.
  revert s2. induction s1 as [| c s1 IH]; intros [| c2 s2] H.
  - reflexivity.
  - apply (f_equal String.length) in H.
    rewrite !string_length_app in H. simpl in H. lia.
  - apply (f_equal String.length) in H.
    rewrite !string_length_app in H. simpl in H. lia.
  - simpl in H. injection H as -> H. f_equal. now apply IH.
Qed.

(** X11: the dialog names the widget and nothing else of it: the message
    is the widget name between fixed texts, so two widgets get the same
    message exactly when they have the same name, whatever their layout
    ids. *)
Theorem deleteMessage_names_widget (w1 w2 : WidgetConfig) :
  (deleteMessage w1 = deleteMessage w2 <-> name w1 = name w2) /\
  String.length (deleteMessage w1) = (35 + String.length (name w1))%nat /\
  substring 33 (String.length (name w1)) (deleteMessage w1) = name w1.
Proof.
  unfold deleteMessage. split; [ split | split ].
  - intros H.
    apply (String.app_inj "Are you sure you want to delete ") in H.
    apply (String.app_inj dquote) in H.
    now apply string_app_inj_r in H.
  - intros ->. reflexivity.
  - rewrite !string_length_app. simpl. lia.
  - change 33%nat with (String.length ("Are you sure you want to delete " +:+ dquote)).
    generalize (name w1). intros n. simpl.
    induction n as [| c n IH]; simpl; [ reflexivity | ].
    f_equal. exact IH.
Qed.

(** ** What the metrics card reads *)

Lemma prop_dsConfig_non_object (widget : WidgetConfig) (k : string) :
  (forall fields, dataSourceConfig widget <> VObj fields) ->
  prop (dsConfig widget) k = VUndef.
Proof.
  intros Hno. unfold dsConfig, js_or.
  destruct (dataSourceConfig widget) as [| | b | x | s | items | fields];
    simpl; try reflexivity.
  - destruct b; reflexivity.
  - destruct (negb (Qeq_bool x 0)); reflexivity.
  - destruct (negb (String.eqb s "")); reflexivity.
  - destruct (Hno fields eq_refl).
Qed.

Section CardInputs.

Context {Date : Type} (toLocaleTimeString : Date -> string).

(** X12: a metrics card is a function of seven keys of the data-source
    configuration, the chart data, [lastRefresh], the offline flag, the
    theme and the width: two metrics-card widgets that agree on these
    render the same element, whatever their ids, names, other
    configuration keys, time range, selection, callback or admin flag. *)
Theorem MetricsCard_inputs (p1 p2 : WidgetRendererProps Date)
    (theme : string) (containerWidth : Q) :
  component (widget p1) = "MetricsCard" ->
  component (widget p2) = "MetricsCard" ->
  (forall k, In k card_keys ->
     prop (dsConfig (widget p1)) k = prop (dsConfig (widget p2)) k) ->
  chartData p1 = chartData p2 ->
  hierarchyChartData p1 = hierarchyChartData p2 ->
  lastRefresh p1 = lastRefresh p2 ->
  default false (isDeviceOffline p1) = default false (isDeviceOffline p2) ->
  WidgetRenderer toLocaleTimeString p1 theme containerWidth
  = WidgetRenderer toLocaleTimeString p2 theme containerWidth.
Proof.
  intros Hc1 Hc2 Hk Hd Hh Hl Ho. unfold WidgetRenderer.
  rewrite Hc1, Hc2. cbn [String.eqb Ascii.eqb Bool.eqb].
  rewrite (Hk "metric"), (Hk "color"), (Hk "colorDark"), (Hk "colorLight"),
    (Hk "icon"), (Hk "title"), (Hk "unit") by (simpl; tauto).
  rewrite Hd, Hh, Hl, Ho. reflexivity.
Qed.

(** X13: a data-source configuration that is not an object (missing,
    null, a number, a string, a boolean, an array) gives the metric card
    with every default: title 'Metric', value '0.00', unit 'l/min', the
    icon '/oildark.png' without alt text, and the background of the
    theme. *)
Theorem MetricsCard_without_config (props : WidgetRendererProps Date)
    (theme : string) (containerWidth : Q) :
  component (widget props) = "MetricsCard" ->
  (forall fields, dataSourceConfig (widget props) <> VObj fields) ->
  exists card span,
    WidgetRenderer toLocaleTimeString props theme containerWidth
    = MetricsCardView card /\
    unitSpan card = Some span /\
    title card = VStr "Metric" /\
    valueText card = Some "0.00" /\
    unitText span = VStr "l/min" /\
    icon card = Img (VStr "/oildark.png") VUndef (iconSize card * 0.6) /\
    iconBackground card
    = VStr (if String.eqb theme "dark" then "#4D3DF7" else "#F56C44").
Proof.
  intros Hc Hno. unfold WidgetRenderer. rewrite Hc.
  cbn [String.eqb Ascii.eqb Bool.eqb].
  rewrite !(prop_dsConfig_non_object _ _ Hno).
  cbn [strict_eq_str js_or truthy].
  rewrite getMetricValue_unrecognized by discriminate.
  eexists. eexists. split; [ reflexivity | ].
  cbn [unitSpan title valueText unitText icon iconBackground iconSize].
  repeat split. destruct (String.eqb theme "dark"); reflexivity.
Qed.

(** X14: the configured title, unit and icon are used only when truthy:
    a value that is missing, null, false, [0] or the empty string is
    replaced by 'Metric', 'l/min' and '/oildark.png'; the alt text of the
    icon is the configured title as it is, without the default. *)
Theorem MetricsCard_falsy_fields (props : WidgetRendererProps Date)
    (theme : string) (containerWidth : Q) :
  component (widget props) = "MetricsCard" ->
  prop (dsConfig (widget props)) "metric" <> VStr "last_refresh" ->
  exists card span,
    WidgetRenderer toLocaleTimeString props theme containerWidth
    = MetricsCardView card /\
    unitSpan card = Some span /\
    (truthy (prop (dsConfig (widget props)) "title") = false ->
     title card = VStr "Metric") /\
    (truthy (prop (dsConfig (widget props)) "title") = true ->
     title card = prop (dsConfig (widget props)) "title") /\
    (truthy (prop (dsConfig (widget props)) "unit") = false ->
     unitText span = VStr "l/min") /\
    (truthy (prop (dsConfig (widget props)) "unit") = true ->
     unitText span = prop (dsConfig (widget props)) "unit") /\
    icon card
    = Img (if truthy (prop (dsConfig (widget props)) "icon")
           then prop (dsConfig (widget props)) "icon"
           else VStr "/oildark.png")
        (prop (dsConfig (widget props)) "title") (iconSize card * 0.6).
Proof.
  intros Hc Hm%strict_eq_str_false. unfold WidgetRenderer. rewrite Hc.
  cbn [String.eqb Ascii.eqb Bool.eqb]. rewrite Hm.
  eexists. eexists. split; [ reflexivity | ].
  cbn [unitSpan title unitText icon iconSize]. unfold js_or.
  repeat split; intros ->; reflexivity.
Qed.

(** X15: with the metric 'last_refresh' the card is a clock: it shows
    the formatted refresh time, or '--:--:--' without one, under the
    fixed title 'Last Refresh' and with no unit; the chart data, the
    offline flag and the configured title and unit are not read. *)
Theorem MetricsCard_last_refresh (p1 p2 : WidgetRendererProps Date)
    (theme : string) (containerWidth : Q) :
  component (widget p1) = "MetricsCard" ->
  prop (dsConfig (widget p1)) "metric" = VStr "last_refresh" ->
  (exists card,
      WidgetRenderer toLocaleTimeString p1 theme containerWidth
      = MetricsCardView card /\
      title card = VStr "Last Refresh" /\
      unitSpan card = None /\
      valueText card
      = Some (match lastRefresh p1 with
              | Some d => toLocaleTimeString d
              | None => "--:--:--"
              end)) /\
  (component (widget p2) = "MetricsCard" ->
   prop (dsConfig (widget p2)) "metric" = VStr "last_refresh" ->
   prop (dsConfig (widget p2)) "color" = prop (dsConfig (widget p1)) "color" ->
   lastRefresh p2 = lastRefresh p1 ->
   WidgetRenderer toLocaleTimeString p2 theme containerWidth
   = WidgetRenderer toLocaleTimeString p1 theme containerWidth).
Proof.
  intros Hc Hm. split.
  - unfold WidgetRenderer. rewrite Hc.
    cbn [String.eqb Ascii.eqb Bool.eqb]. rewrite Hm.
    cbn [strict_eq_str String.eqb Ascii.eqb Bool.eqb].
    eexists. split; [ reflexivity | ]. repeat split.
  - intros Hc2 Hm2 Hcol Hl. unfold WidgetRenderer. rewrite Hc, Hc2.
    cbn [String.eqb Ascii.eqb Bool.eqb]. rewrite Hm, Hm2, Hcol, Hl.
    reflexivity.
Qed.

(** X16: a device that is offline changes the colour of the value and
    nothing else: the card still shows the latest value, and equals the
    online card up to [valueColor], which is grey ('#6b7280' on dark,
    '#9ca3af' otherwise). *)
Theorem MetricsCard_offline (p1 p2 : WidgetRendererProps Date)
    (theme : string) (containerWidth : Q) :
  component (widget p1) = "MetricsCard" ->
  prop (dsConfig (widget p1)) "metric" <> VStr "last_refresh" ->
  widget p2 = widget p1 ->
  chartData p2 = chartData p1 ->
  hierarchyChartData p2 = hierarchyChartData p1 ->
  isDeviceOffline p2 = Some true ->
  exists card,
    WidgetRenderer toLocaleTimeString p1 theme containerWidth
    = MetricsCardView card /\
    WidgetRenderer toLocaleTimeString p2 theme containerWidth
    = MetricsCardView
        (with_valueColor card
           (if String.eqb theme "dark" then "#6b7280" else "#9ca3af")) /\
    valueText card
    = toFixed (getMetricValue (hierarchyChartData p1) (chartData p1)
                 (prop (dsConfig (widget p1)) "metric")) 2.
Proof.
  intros Hc Hm%strict_eq_str_false Hw Hd Hh Ho. unfold WidgetRenderer.
  rewrite Hw, Hd, Hh, Ho, Hc. cbn [String.eqb Ascii.eqb Bool.eqb].
  rewrite Hm. eexists. split; [ reflexivity | ].
  split; reflexivity.
Qed.

End CardInputs.

Lemma MetricsCard_inputs_witness :
  WidgetRenderer sample_clock
    (sample_props "MetricsCard" (VObj {[ "metric" := VStr "ofr" ]})) "dark" 200
  = WidgetRenderer sample_clock
      (sample_props_named "Water cut" (Some false) None
         (VObj {[ "metric" := VStr "ofr"; "seriesConfig" := VArr [] ]}))
      "dark" 200.
Proof.
  apply (MetricsCard_inputs sample_clock
           (sample_props "MetricsCard" (VObj {[ "metric" := VStr "ofr" ]}))
           (sample_props_named "Water cut" (Some false) None
              (VObj {[ "metric" := VStr "ofr"; "seriesConfig" := VArr [] ]}))
           "dark" 200); try reflexivity.
  intros k Hk. simpl in Hk.
  destruct Hk as [<- | [<- | [<- | [<- | [<- | [<- | [<- | []]]]]]]];
    vm_compute; reflexivity.
Defined.

Lemma MetricsCard_without_config_witness :
  exists card span,
    WidgetRenderer sample_clock (sample_props "MetricsCard" (VNum 5)) "dark" 200
    = MetricsCardView card /\
    unitSpan card = Some span /\
    title card = VStr "Metric" /\
    valueText card = Some "0.00" /\
    unitText span = VStr "l/min" /\
    icon card = Img (VStr "/oildark.png") VUndef (iconSize card * 0.6) /\
    iconBackground card = VStr "#4D3DF7".
Proof.
  apply (MetricsCard_without_config sample_clock
           (sample_props "MetricsCard" (VNum 5)) "dark" 200 eq_refl).
  discriminate.
Defined.

Lemma MetricsCard_falsy_fields_witness :
  exists card span,
    WidgetRenderer sample_clock
      (sample_props "MetricsCard"
         (VObj {[ "unit" := VStr ""; "title" := VStr "Oil" ]})) "dark" 200
    = MetricsCardView card /\
    unitSpan card = Some span /\
    unitText span = VStr "l/min" /\
    title card = VStr "Oil".
Proof.
  assert (Hm : prop (dsConfig (widget
                  (sample_props "MetricsCard"
                     (VObj {[ "unit" := VStr ""; "title" := VStr "Oil" ]}))))
                 "metric" <> VStr "last_refresh")
    by (vm_compute; intros H; discriminate H).
  destruct (MetricsCard_falsy_fields sample_clock
              (sample_props "MetricsCard"
                 (VObj {[ "unit" := VStr ""; "title" := VStr "Oil" ]}))
              "dark" 200 eq_refl Hm)
    as (card & span & Hv & Hs & _ & Ht & Hu & _ & _).
  exists card, span. split; [ exact Hv | ]. split; [ exact Hs | ].
  split; [ apply Hu; vm_compute; reflexivity | ].
  rewrite Ht by (vm_compute; reflexivity). vm_compute. reflexivity.
Defined.

Lemma MetricsCard_last_refresh_witness :
  exists card,
    WidgetRenderer sample_clock
      (sample_props "MetricsCard" (VObj {[ "metric" := VStr "last_refresh" ]}))
      "dark" 200
    = MetricsCardView card /\
    title card = VStr "Last Refresh" /\
    unitSpan card = None /\
    valueText card = Some "--:--:--".
Proof.
  assert (Hm : prop (dsConfig (widget
                  (sample_props "MetricsCard"
                     (VObj {[ "metric" := VStr "last_refresh" ]}))))
                 "metric" = VStr "last_refresh")
    by (vm_compute; reflexivity).
  apply (proj1 (MetricsCard_last_refresh sample_clock
                  (sample_props "MetricsCard"
                     (VObj {[ "metric" := VStr "last_refresh" ]}))
                  (sample_props "MetricsCard"
                     (VObj {[ "metric" := VStr "last_refresh" ]}))
                  "dark" 200 eq_refl Hm)).
Defined.

Lemma MetricsCard_offline_witness :
  exists card,
    WidgetRenderer sample_clock
      (sample_props_named "Gas" None None (VObj {[ "metric" := VStr "gfr" ]}))
      "light" 200
    = MetricsCardView card /\
    WidgetRenderer sample_clock
      (sample_props_named "Gas" None (Some true)
         (VObj {[ "metric" := VStr "gfr" ]}))
      "light" 200
    = MetricsCardView (with_valueColor card "#9ca3af") /\
    valueText card = Some "60.00".
Proof.
  assert (Hm : prop (dsConfig (widget
                  (sample_props_named "Gas" None None
                     (VObj {[ "metric" := VStr "gfr" ]}))))
                 "metric" <> VStr "last_refresh")
    by (vm_compute; intros H; discriminate H).
  destruct (MetricsCard_offline sample_clock
              (sample_props_named "Gas" None None
                 (VObj {[ "metric" := VStr "gfr" ]}))
              (sample_props_named "Gas" None (Some true)
                 (VObj {[ "metric" := VStr "gfr" ]}))
              "light" 200 eq_refl Hm eq_refl eq_refl eq_refl eq_refl)
    as (card & Hv & Hv2 & Ht).
  exists card. split; [ exact Hv | ]. split; [ exact Hv2 | ].
  rewrite Ht. vm_compute. reflexivity.
Defined.

(** ** The responsive helpers *)

(** X17: for a base size from 20 to 40 no clamp of
    [getResponsiveFontSize] applies, and the font size is the base size
    times the scale tier [getScaleFactor] gives for the same width. *)
Theorem getResponsiveFontSize_scales (w b : Q) :
  20 <= b -> b <= 40 ->
  px_value (getResponsiveFontSize w (Some b)) == b * getScaleFactor w.
Proof.
  intros Hlo Hhi. unfold getResponsiveFontSize, getScaleFactor.
  simpl default. breakpoints; simpl px_value; clamps; lra.
Qed.

Lemma getResponsiveFontSize_scales_witness :
  px_value (getResponsiveFontSize 180 (Some 24)) == 24 * getScaleFactor 180.
Proof. apply (getResponsiveFontSize_scales 180 24); lra. Defined.

(** X18: whatever the base size, given or left out, the font is at least
    12 pixels below width 150, at least 14 from 150 up to 200, at least
    16 from 200 up to 300, and at most 48 from width 400 on. *)
Theorem getResponsiveFontSize_clamps (w : Q) (baseSize : option Q) :
  (w < 150 -> 12 <= px_value (getResponsiveFontSize w baseSize)) /\
  (150 <= w -> w < 200 -> 14 <= px_value (getResponsiveFontSize w baseSize)) /\
  (200 <= w -> w < 300 -> 16 <= px_value (getResponsiveFontSize w baseSize)) /\
  (400 <= w -> px_value (getResponsiveFontSize w baseSize) <= 48).
Proof.
  unfold getResponsiveFontSize.
  repeat split; intros; breakpoints; try lra; simpl px_value; clamps; lra.
Qed.

Lemma getResponsiveFontSize_clamps_witness :
  12 <= px_value (getResponsiveFontSize 100 (Some 5)) /\
  px_value (getResponsiveFontSize 500 (Some 90)) <= 48.
Proof.
  split.
  - apply (getResponsiveFontSize_clamps 100 (Some 5)). lra.
  - apply (getResponsiveFontSize_clamps 500 (Some 90)). lra.
Defined.

(** X19: [getResponsivePadding] and [getResponsiveGap] are monotonic in
    the width. *)
Theorem getResponsivePadding_monotone (w1 w2 : Q) :
  w1 <= w2 ->
  getResponsivePadding w1 <= getResponsivePadding w2 /\
  getResponsiveGap w1 <= getResponsiveGap w2.
Proof.
  intros Hle. unfold getResponsivePadding, getResponsiveGap.
  split; breakpoints; lra.
Qed.

Lemma getResponsivePadding_monotone_witness :
  getResponsivePadding 149 <= getResponsivePadding 150 /\
  getResponsiveGap 149 <= getResponsiveGap 150.
Proof. apply (getResponsivePadding_monotone 149 150). lra. Defined.

(** ** Where a metric value comes from *)

Lemma num_or_cases (x : option Q) :
  num_or x 0 = 0 \/ x = Some (num_or x 0).
Proof.
  destruct x as [v |]; simpl; [ | auto ].
  destruct (Qeq_bool v 0); auto.
Qed.

Lemma hierarchy_reading_cases (x : Hierarchy.Sample) (metric : jsval) :
  hierarchy_reading x metric = 0 \/
  In (Some (hierarchy_reading x metric))
    [Hierarchy.totalOfr x; Hierarchy.totalWfr x; Hierarchy.totalGfr x].
Proof.
  rewrite <- hierarchy_switch.
  destruct (strict_eq_str metric "ofr");
    [ destruct (num_or_cases (Hierarchy.totalOfr x)) as [-> | E];
      [ auto | right; simpl; auto ] | ].
  destruct (strict_eq_str metric "wfr");
    [ destruct (num_or_cases (Hierarchy.totalWfr x)) as [-> | E];
      [ auto | right; simpl; auto ] | ].
  destruct (strict_eq_str metric "gfr");
    [ destruct (num_or_cases (Hierarchy.totalGfr x)) as [-> | E];
      [ auto | right; simpl; auto ] | ].
  auto.
Qed.

Lemma device_reading_cases (x : Device.Sample) (metric : jsval) :
  device_reading x metric = 0 \/
  In (Some (device_reading x metric))
    [Device.ofr x; Device.wfr x; Device.gfr x].
Proof.
  rewrite <- device_switch.
  destruct (strict_eq_str metric "ofr");
    [ destruct (num_or_cases (Device.ofr x)) as [-> | E];
      [ auto | right; simpl; auto ] | ].
  destruct (strict_eq_str metric "wfr");
    [ destruct (num_or_cases (Device.wfr x)) as [-> | E];
      [ auto | right; simpl; auto ] | ].
  destruct (strict_eq_str metric "gfr");
    [ destruct (num_or_cases (Device.gfr x)) as [-> | E];
      [ auto | right; simpl; auto ] | ].
  auto.
Qed.

(** X20: [getMetricValue] never makes up a number: its result is [0],
    or a flow-rate field stored in the last hierarchy sample, or, when the
    hierarchy sequence is absent or empty, a field stored in the last
    device sample. *)
Theorem getMetricValue_from_latest (h : option Hierarchy.ChartData)
    (d : option Device.ChartData) (metric : jsval) :
  getMetricValue h d metric = 0 \/
  (exists x,
      (h ≫= Hierarchy.chartData) ≫= last = Some x /\
      In (Some (getMetricValue h d metric))
        [Hierarchy.totalOfr x; Hierarchy.totalWfr x; Hierarchy.totalGfr x]) \/
  (absent_or_empty (h ≫= Hierarchy.chartData) /\
   exists x,
     (d ≫= Device.chartData) ≫= last = Some x /\
     In (Some (getMetricValue h d metric))
       [Device.ofr x; Device.wfr x; Device.gfr x]).
Proof.
  destruct (h ≫= Hierarchy.chartData) as [hs |] eqn:Hh;
    [ destruct (decide (hs = [])) as [-> | Hne] | ].
  - assert (Ha : absent_or_empty (h ≫= Hierarchy.chartData))
      by (rewrite Hh; right; reflexivity).
    rewrite (getMetricValue_device _ _ _ Ha).
    destruct (nonempty (d ≫= Device.chartData)) as [ds |] eqn:Hd;
      [ | auto ].
    apply nonempty_Some in Hd as [Hd _]. rewrite Hd. simpl.
    destruct (last ds) as [x |] eqn:Hl; [ | auto ].
    destruct (device_reading_cases x metric) as [E | E]; [ auto | ].
    right. right. split; [ right; reflexivity | ]. exists x. auto.
  - destruct (getMetricValue_hierarchy h d metric hs Hh Hne)
      as (x & Hl & ->).
    destruct (hierarchy_reading_cases x metric) as [E | E]; [ auto | ].
    right. left. exists x. auto.
  - assert (Ha : absent_or_empty (h ≫= Hierarchy.chartData))
      by (rewrite Hh; left; reflexivity).
    rewrite (getMetricValue_device _ _ _ Ha).
    destruct (nonempty (d ≫= Device.chartData)) as [ds |] eqn:Hd;
      [ | auto ].
    apply nonempty_Some in Hd as [Hd _]. rewrite Hd. simpl.
    destruct (last ds) as [x |] eqn:Hl; [ | auto ].
    destruct (device_reading_cases x metric) as [E | E]; [ auto | ].
    right. right. split; [ left; reflexivity | ]. exists x. auto.
Qed.
